(** * Page objects of the SauceDemo Playwright suite

    A shallow embedding of [pages/BasePage.ts], [pages/ProductsPage.ts],
    [pages/CartPage.ts], [pages/CheckoutOverviewPage.ts] and
    [playwright.config.ts], with the properties the specification states
    about them.

    Conventions.
    - A JavaScript string is a [string]; each [ascii] stands for one UTF-16
      code unit in the range U+0000..U+00FF (Latin-1).  On that range
      [toLowerCase], [trim] and the regular-expression class [\s] are
      modelled exactly; code units above U+00FF are outside the model.
    - A JavaScript number is a double: [NaN], an infinity, or a finite
      double given by its exact rational value.  The value a string of
      digits denotes is rounded to the nearest double, ties to even, and to
      an infinity beyond the range ([Num.toDouble]); the two zeros are not
      told apart.
    - The Playwright [Page] is an external collaborator: it is an interface
      ([Class Page]) whose operations may throw and may change the world. *)

From Stdlib Require Import Bool Ascii String List NArith ZArith QArith Lia.
From Stdlib Require Qcanon.
Import ListNotations.

Local Open Scope string_scope.

(** ** JavaScript strings *)

Module JS.

Definition code (c : ascii) : N := N_of_ascii c.

(** [\s] in a regular expression and the set [String.prototype.trim]
    strips: TAB, LF, VT, FF, CR, SPACE and NO-BREAK SPACE below U+0100. *)
Definition isWhiteSpace (c : ascii) : bool :=
  let n := code c in
  (((9 <=? n) && (n <=? 13)) || (n =? 32) || (n =? 160))%N.

(** [\d] *)
Definition isDigit (c : ascii) : bool :=
  let n := code c in ((48 <=? n) && (n <=? 57))%N.

(** [[()]] *)
Definition isParen (c : ascii) : bool :=
  let n := code c in ((n =? 40) || (n =? 41))%N.

(** [\.] *)
Definition isDot (c : ascii) : bool := (code c =? 46)%N.

Definition isDollar (c : ascii) : bool := (code c =? 36)%N.

(** Unicode simple lower-case mapping on U+0000..U+00FF: A-Z and the
    Latin-1 capitals U+00C0..U+00DE (the multiplication sign U+00D7
    excepted) move up by 32. *)
Definition lowerChar (c : ascii) : ascii :=
  let n := code c in
  if (((65 <=? n) && (n <=? 90))
      || ((192 <=? n) && (n <=? 222) && negb (n =? 215)))%N
  then ascii_of_N (n + 32) else c.

(** [s.toLowerCase()] *)
Fixpoint toLowerCase (s : string) : string :=
  match s with
  | EmptyString => EmptyString
  | String c s' => String (lowerChar c) (toLowerCase s')
  end.

(** [s.replace(/C+/g, r)] for a character class [C]: scanning from the
    left, a match starts at the first character of the class, is greedy
    (takes the whole run), and scanning resumes after it. *)
Fixpoint replaceAllPlus (p : ascii -> bool) (r : string) (s : string) : string :=
  match s with
  | EmptyString => EmptyString
  | String c s' =>
      if p c then
        r ++ (fix afterMatch (t : string) : string :=
                match t with
                | EmptyString => EmptyString
                | String d t' =>
                    if p d then afterMatch t'
                    else String d (replaceAllPlus p r t')
                end) s'
      else String c (replaceAllPlus p r s')
  end.

(** [s.replace(/C/g, r)] for a character class [C]: every single
    character of the class is a match. *)
Fixpoint replaceAllChar (p : ascii -> bool) (r : string) (s : string) : string :=
  match s with
  | EmptyString => EmptyString
  | String c s' =>
      if p c then r ++ replaceAllChar p r s'
      else String c (replaceAllChar p r s')
  end.

(** [s.replace(c, r)] with a one-character string pattern: only the first
    occurrence is replaced. *)
Fixpoint replaceFirstChar (p : ascii -> bool) (r : string) (s : string) : string :=
  match s with
  | EmptyString => EmptyString
  | String c s' =>
      if p c then r ++ s' else String c (replaceFirstChar p r s')
  end.

Fixpoint dropWhile (p : ascii -> bool) (s : string) : string :=
  match s with
  | EmptyString => EmptyString
  | String c s' => if p c then dropWhile p s' else s
  end.

Fixpoint takeWhile (p : ascii -> bool) (s : string) : string :=
  match s with
  | EmptyString => EmptyString
  | String c s' => if p c then String c (takeWhile p s') else EmptyString
  end.

(** Removal of the trailing characters of a class. *)
Fixpoint dropWhileEnd (p : ascii -> bool) (s : string) : string :=
  match s with
  | EmptyString => EmptyString
  | String c s' =>
      match dropWhileEnd p s' with
      | EmptyString => if p c then EmptyString else String c EmptyString
      | t => String c t
      end
  end.

(** [s.trim()] *)
Definition trim (s : string) : string :=
  dropWhileEnd isWhiteSpace (dropWhile isWhiteSpace s).

(** Truthiness of a string: the empty string is falsy. *)
Definition truthy (s : string) : bool :=
  match s with EmptyString => false | _ => true end.

(** Truthiness of a [string | null | undefined] value. *)
Definition truthyOpt (o : option string) : bool :=
  match o with Some s => truthy s | None => false end.

Fixpoint forallb (p : ascii -> bool) (s : string) : bool :=
  match s with
  | EmptyString => true
  | String c s' => p c && forallb p s'
  end.

End JS.

(** The double-quote character, for the attribute selectors. *)
Definition dquote : string := String (ascii_of_nat 34) EmptyString.

(** ** JavaScript numbers *)

Module Num.

(** A number is NaN, an infinity, or a finite double, given by the
    rational it is (in lowest terms).  The two zeros are not told apart. *)
Inductive number : Type :=
| NaN
| Infinity (negative : bool)
| Finite (q : Q).

Definition zero : number := Finite 0.

(** Falsy numbers are NaN and zero. *)
Definition falsy (n : number) : bool :=
  match n with
  | NaN => true
  | Infinity _ => false
  | Finite q => Qeq_bool q 0
  end.

(** [n || d] *)
Definition orElse (n d : number) : number := if falsy n then d else n.

Definition digitValue (c : ascii) : N := (JS.code c - 48)%N.

(** Value of a string of decimal digits, most significant first. *)
Fixpoint digitsValueFrom (acc : N) (s : string) : N :=
  match s with
  | EmptyString => acc
  | String c s' => digitsValueFrom (acc * 10 + digitValue c)%N s'
  end.

Definition digitsValue (s : string) : N := digitsValueFrom 0 s.

Definition pow10 (e : Z) : Q :=
  if (0 <=? e)%Z then inject_Z (10 ^ e)
  else Qinv (inject_Z (10 ^ (- e))).

(** Mathematical value of [ip.fp] times ten to the [e]. *)
Definition decimalMV (ip fp : string) (e : Z) : Q :=
  Qred (inject_Z (Z.of_N (digitsValue (ip ++ fp)))
        * pow10 (e - Z.of_nat (String.length fp))).

Definition signed (negative : bool) (q : Q) : Q :=
  if negative then Qred (- q) else q.

(** [floor (log2 (a / d))] for positive [a] and [d]. *)
Definition floorLog2 (a d : Z) : Z :=
  let e := (Z.log2 a - Z.log2 d)%Z in
  if (if 0 <=? e then d * 2 ^ e <=? a else d <=? a * 2 ^ (- e))%Z
  then e else (e - 1)%Z.

(** [num / den] rounded to the nearest integer, a tie to the even one. *)
Definition roundHalfEven (num den : Z) : Z :=
  let m := (num / den)%Z in
  match (2 * (num mod den) ?= den)%Z with
  | Lt => m
  | Gt => (m + 1)%Z
  | Eq => if Z.even m then m else (m + 1)%Z
  end.

(** The Number value for a mathematical value: the nearest double, a tie
    to the even significand.  A double is [m * 2 ^ k] with [m] below
    [2 ^ 53] and [k] from [-1074] (the subnormals) upwards; a value that
    rounds to [2 ^ 1024] or more is an infinity. *)
Definition toDouble (q : Q) : number :=
  let n := Qnum q in
  let d := Zpos (Qden q) in
  if (n =? 0)%Z then Finite 0
  else
    let a := Z.abs n in
    let k := Z.max (floorLog2 a d - 52) (-1074) in
    if (0 <=? k)%Z then
      let v := (roundHalfEven a (d * 2 ^ k) * 2 ^ k)%Z in
      if (2 ^ 1024 <=? v)%Z then Infinity (n <? 0)%Z
      else Finite (signed (n <? 0)%Z (inject_Z v))
    else
      Finite (signed (n <? 0)%Z
                (Qred (roundHalfEven (a * 2 ^ (- k)) d
                       # Z.to_pos (2 ^ (- k))))).

(** Neither NaN nor below zero. *)
Definition nonNegative (n : number) : Prop :=
  match n with
  | NaN => False
  | Infinity negative => negative = false
  | Finite q => 0 <= q
  end.

(** An optional leading [+] or [-]: whether it is a minus, and the rest. *)
Definition takeSign (s : string) : bool * string :=
  match s with
  | String c r =>
      if (JS.code c =? 45)%N then (true, r)
      else if (JS.code c =? 43)%N then (false, r)
      else (false, s)
  | EmptyString => (false, s)
  end.

(** [parseInt(s, 10)]: leading white space is skipped, a sign is read, and
    the longest run of decimal digits is the value, as a double; NaN when
    that run is empty.  With radix 10 given, no [0x] prefix is
    recognised. *)
Definition parseInt10 (s : string) : number :=
  let s1 := JS.dropWhile JS.isWhiteSpace s in
  let '(negative, s2) := takeSign s1 in
  let z := JS.takeWhile JS.isDigit s2 in
  if JS.truthy z
  then toDouble (signed negative (inject_Z (Z.of_N (digitsValue z))))
  else NaN.

(** The exponent part [e], [E] followed by an optional sign and at least
    one digit; 0 when there is none. *)
Definition exponentPart (s : string) : Z :=
  match s with
  | String c r =>
      if ((JS.code c =? 101) || (JS.code c =? 69))%N then
        let '(negative, r') := takeSign r in
        let ds := JS.takeWhile JS.isDigit r' in
        if JS.truthy ds then
          (if negative then - Z.of_N (digitsValue ds)
           else Z.of_N (digitsValue ds))%Z
        else 0%Z
      else 0%Z
  | EmptyString => 0%Z
  end.

(** [parseFloat(s)]: leading white space is skipped and the longest prefix
    that is a StrDecimalLiteral is the value, as a double; NaN when there
    is none. *)
Definition parseFloat (s : string) : number :=
  let s1 := JS.dropWhile JS.isWhiteSpace s in
  let '(negative, s2) := takeSign s1 in
  if String.prefix "Infinity" s2 then Infinity negative
  else
    let ip := JS.takeWhile JS.isDigit s2 in
    let r1 := JS.dropWhile JS.isDigit s2 in
    let '(fp, r2) :=
      match r1 with
      | String c r =>
          if JS.isDot c
          then (JS.takeWhile JS.isDigit r, JS.dropWhile JS.isDigit r)
          else (EmptyString, r1)
      | EmptyString => (EmptyString, r1)
      end in
    if JS.truthy ip || JS.truthy fp
    then toDouble (signed negative (decimalMV ip fp (exponentPart r2)))
    else NaN.

End Num.

(** ** The Playwright page *)

(** A locator is built without touching the page: [page.locator(sel)] and
    [locator.nth(i)]. *)
Inductive Locator : Type :=
| Loc (selector : string)
| Nth (l : Locator) (i : nat).

(** What a rejected promise carries. *)
Definition Error : Type := string.

(** An awaited operation: it reads and changes the world, and either
    returns or throws. *)
Definition Async (W A : Type) : Type := W -> (Error + A) * W.

Definition ret {W A : Type} (a : A) : Async W A := fun w => (inr a, w).

Definition throw {W A : Type} (e : Error) : Async W A := fun w => (inl e, w).

Definition bind {W A B : Type} (m : Async W A) (k : A -> Async W B)
  : Async W B :=
  fun w => match m w with
           | (inr a, w') => k a w'
           | (inl e, w') => (inl e, w')
           end.

(** [try { m } catch { h }] *)
Definition tryCatch {W A : Type} (m : Async W A) (h : Async W A)
  : Async W A :=
  fun w => match m w with
           | (inr a, w') => (inr a, w')
           | (inl _, w') => h w'
           end.

Notation "x <- m ;; k" := (bind m (fun x => k))
  (at level 61, m at next level, right associativity).

(** The part of Playwright's [Page] and [Locator] the page objects call. *)
Class Page (W : Type) : Type := {
  page_goto : string -> Async W unit;
  locator_click : Locator -> Async W unit;
  locator_fill : Locator -> string -> Async W unit;
  locator_isVisible : Locator -> Async W bool;
  locator_textContent : Locator -> Async W (option string);
  locator_count : Locator -> Async W nat;
  locator_all : Locator -> Async W (list Locator);
}.

(** [locator.allTextContents()]: the text contents of all matching
    elements, in document order. *)
Class LocatorTexts (W : Type) : Type := {
  locator_allTextContents : Locator -> Async W (list string);
}.

(** The attribute selector [[data-test="id"]]. *)
Definition dataTest (id : string) : string :=
  "[data-test=" ++ dquote ++ id ++ dquote ++ "]".

(** ** pages/BasePage.ts *)

Module BasePage.
Section WithPage.
Context {W : Type} {P : Page W}.

Definition baseURL : string := "https://www.saucedemo.com".

Definition goto (path : string) : Async W unit :=
  page_goto (baseURL ++ path).

Definition click (selector : string) : Async W unit :=
  locator_click (Loc selector).

Definition fill (selector text : string) : Async W unit :=
  locator_fill (Loc selector) text.

(** [text?.trim() || ''] *)
Definition trimOrEmpty (text : option string) : string :=
  match text with
  | Some t => if JS.truthy (JS.trim t) then JS.trim t else EmptyString
  | None => EmptyString
  end.

Definition getText (selector : string) : Async W string :=
  text <- locator_textContent (Loc selector) ;;
  ret (trimOrEmpty text).

Definition isVisible (selector : string) : Async W bool :=
  tryCatch (locator_isVisible (Loc selector)) (ret false).

End WithPage.
End BasePage.

(** ** pages/ProductsPage.ts *)

Module ProductsPage.
Section WithPage.
Context {W : Type} {P : Page W}.

Definition cartBadge : string := ".shopping_cart_badge".
Definition productName : string := ".inventory_item_name".
Definition productPrice : string := ".inventory_item_price".

Definition getProductId (name : string) : string :=
  JS.replaceAllChar JS.isDot EmptyString
    (JS.replaceAllChar JS.isParen EmptyString
       (JS.replaceAllPlus JS.isWhiteSpace "-"
          (JS.toLowerCase name))).

Definition getAddToCartButtonSelector (name : string) : string :=
  "[data-test=" ++ dquote ++ "add-to-cart-" ++ getProductId name
    ++ dquote ++ "]".

Definition getRemoveButtonSelector (name : string) : string :=
  "[data-test=" ++ dquote ++ "remove-" ++ getProductId name
    ++ dquote ++ "]".

Definition addProductToCart (name : string) : Async W unit :=
  BasePage.click (getAddToCartButtonSelector name).

Definition removeProductFromCart (name : string) : Async W unit :=
  BasePage.click (getRemoveButtonSelector name).

Definition getCartBadgeCount : Async W Num.number :=
  visible <- BasePage.isVisible cartBadge ;;
  if negb visible then ret Num.zero
  else
    text <- BasePage.getText cartBadge ;;
    ret (Num.orElse (Num.parseInt10 text) Num.zero).

(** The body of [for (let i = 0; i < count; i++)] in [getProductNames],
    with [remaining = count - i] iterations left. *)
Fixpoint getProductNames_loop (titles : Locator) (remaining i : nat)
    (names : list string) : Async W (list string) :=
  match remaining with
  | O => ret names
  | S remaining' =>
      name <- locator_textContent (Nth titles i) ;;
      getProductNames_loop titles remaining' (S i)
        (match name with
         | Some n => if JS.truthy n then names ++ [JS.trim n] else names
         | None => names
         end)
  end.

Definition getProductNames : Async W (list string) :=
  let productTitles := Loc productName in
  count <- locator_count productTitles ;;
  getProductNames_loop productTitles count 0 [].

Fixpoint getProductPrices_loop (priceElements : Locator) (remaining i : nat)
    (prices : list Num.number) : Async W (list Num.number) :=
  match remaining with
  | O => ret prices
  | S remaining' =>
      priceText <- locator_textContent (Nth priceElements i) ;;
      getProductPrices_loop priceElements remaining' (S i)
        (match priceText with
         | Some t =>
             if JS.truthy t
             then prices ++
                  [Num.parseFloat
                     (JS.replaceFirstChar JS.isDollar EmptyString t)]
             else prices
         | None => prices
         end)
  end.

Definition getProductPrices : Async W (list Num.number) :=
  let priceElements := Loc productPrice in
  count <- locator_count priceElements ;;
  getProductPrices_loop priceElements count 0 [].

Definition isProductAdded (name : string) : Async W bool :=
  BasePage.isVisible (getRemoveButtonSelector name).

(** [title?.trim() === productName] *)
Definition titleIs (name : string) (title : option string) : bool :=
  match title with
  | Some t => String.eqb (JS.trim t) name
  | None => false
  end.

Definition notFound (name : string) : Error :=
  "Product " ++ dquote ++ name ++ dquote ++ " not found".

(** The loop of [clickProductTitle], with [remaining = count - i]
    iterations left; falling out of the loop throws. *)
Fixpoint clickProductTitle_loop (productTitles : Locator) (name : string)
    (remaining i : nat) : Async W unit :=
  match remaining with
  | O => throw (notFound name)
  | S remaining' =>
      title <- locator_textContent (Nth productTitles i) ;;
      if titleIs name title
      then locator_click (Nth productTitles i)
      else clickProductTitle_loop productTitles name remaining' (S i)
  end.

Definition clickProductTitle (name : string) : Async W unit :=
  let productTitles := Loc productName in
  count <- locator_count productTitles ;;
  clickProductTitle_loop productTitles name count 0.

End WithPage.
End ProductsPage.

(** ** pages/CartPage.ts *)

Module CartPage.
Section WithPage.
Context {W : Type} {P : Page W}.

Definition cartItemName : string := ".inventory_item_name".
Definition cartBadge : string := ".shopping_cart_badge".

Definition getRemoveButtonSelector (name : string) : string :=
  "//div[@class='cart_item']//div[@class='inventory_item_name' and text()='"
    ++ name
    ++ "']/ancestor::div[@class='cart_item']//button[contains(@id, 'remove')]".

Definition getCartItemSelector (name : string) : string :=
  "//div[@class='cart_item']//div[@class='inventory_item_name' and text()='"
    ++ name ++ "']".

(** The body of [for (const element of itemElements)]. *)
Fixpoint getCartItemNames_loop (itemElements : list Locator)
    (names : list string) : Async W (list string) :=
  match itemElements with
  | [] => ret names
  | element :: rest =>
      text <- locator_textContent element ;;
      getCartItemNames_loop rest
        (match text with
         | Some t => if JS.truthy t then names ++ [JS.trim t] else names
         | None => names
         end)
  end.

Definition getCartItemNames : Async W (list string) :=
  itemElements <- locator_all (Loc cartItemName) ;;
  getCartItemNames_loop itemElements [].


Definition isItemInCart (name : string) : Async W bool :=
  BasePage.isVisible (getCartItemSelector name).

Definition getCartItemCount : Async W Num.number :=
  isBadgeVisible <- BasePage.isVisible cartBadge ;;
  if negb isBadgeVisible then ret Num.zero
  else
    badgeText <- BasePage.getText cartBadge ;;
    ret (Num.orElse (Num.parseInt10 badgeText) Num.zero).

End WithPage.
End CartPage.

(** ** pages/CheckoutOverviewPage.ts *)

Module CheckoutOverviewPage.
Section WithPage.
Context {W : Type} {P : Page W}.

Definition subtotalLabel : string := ".summary_subtotal_label".
Definition taxLabel : string := ".summary_tax_label".
Definition totalLabel : string := ".summary_total_label".

(** [/\$(\d+\.\d+)/] tried at the start of [s]: the capture group when it
    matches.  Both [\d+] are greedy; giving digits back never helps, since
    the character after a shorter run is a digit, not the period. *)
Definition matchAmountHere (s : string) : option string :=
  match s with
  | String c r =>
      if JS.isDollar c then
        let ip := JS.takeWhile JS.isDigit r in
        match JS.dropWhile JS.isDigit r with
        | String d r' =>
            let fp := JS.takeWhile JS.isDigit r' in
            if JS.isDot d && JS.truthy ip && JS.truthy fp
            then Some (ip ++ "." ++ fp)
            else None
        | EmptyString => None
        end
      else None
  | EmptyString => None
  end.

(** [text.match(/\$(\d+\.\d+)/)]: the leftmost position where the pattern
    matches; the result is [match[1]], or [None] for [null]. *)
Fixpoint matchAmount (text : string) : option string :=
  match matchAmountHere text with
  | Some m => Some m
  | None =>
      match text with
      | String _ text' => matchAmount text'
      | EmptyString => None
      end
  end.

(** [match ? parseFloat(match[1]) : 0] *)
Definition amountOf (text : string) : Num.number :=
  match matchAmount text with
  | Some m1 => Num.parseFloat m1
  | None => Num.zero
  end.

Definition getSubtotal : Async W Num.number :=
  subtotalText <- BasePage.getText subtotalLabel ;;
  ret (amountOf subtotalText).

Definition getTax : Async W Num.number :=
  taxText <- BasePage.getText taxLabel ;;
  ret (amountOf taxText).

Definition getTotal : Async W Num.number :=
  totalText <- BasePage.getText totalLabel ;;
  ret (amountOf totalText).

Context {T : LocatorTexts W}.

Definition itemNames : string := ".inventory_item_name".
Definition itemPrices : string := ".inventory_item_price".

Definition getItemNames : Async W (list string) :=
  items <- locator_allTextContents (Loc itemNames) ;;
  ret (map JS.trim items).

Definition getItemPrices : Async W (list Num.number) :=
  priceTexts <- locator_allTextContents (Loc itemPrices) ;;
  ret (map (fun price =>
              Num.parseFloat
                (JS.trim (JS.replaceFirstChar JS.isDollar EmptyString price)))
           priceTexts).

End WithPage.
End CheckoutOverviewPage.

(** ** pages/LoginPage.ts *)

Module LoginPage.
Section WithPage.
Context {W : Type} {P : Page W}.

Definition usernameInput : string := dataTest "username".
Definition passwordInput : string := dataTest "password".
Definition loginButton : string := dataTest "login-button".
Definition errorMessage : string := dataTest "error".

Definition navigate : Async W unit := BasePage.goto "/".

Definition login (username password : string) : Async W unit :=
  _ <- BasePage.fill usernameInput username ;;
  _ <- BasePage.fill passwordInput password ;;
  BasePage.click loginButton.

Definition getErrorMessage : Async W string := BasePage.getText errorMessage.

Definition isErrorDisplayed : Async W bool := BasePage.isVisible errorMessage.

End WithPage.
End LoginPage.

(** ** pages/CheckoutInfoPage.ts *)

Module CheckoutInfoPage.
Section WithPage.
Context {W : Type} {P : Page W}.

Definition firstNameInput : string := dataTest "firstName".
Definition lastNameInput : string := dataTest "lastName".
Definition postalCodeInput : string := dataTest "postalCode".
Definition continueButton : string := dataTest "continue".

Definition fillCheckoutInfo (firstName lastName postalCode : string)
  : Async W unit :=
  _ <- BasePage.fill firstNameInput firstName ;;
  _ <- BasePage.fill lastNameInput lastName ;;
  BasePage.fill postalCodeInput postalCode.

Definition clickContinue : Async W unit := BasePage.click continueButton.

End WithPage.
End CheckoutInfoPage.

(** ** pages/CheckoutCompletePage.ts *)

Module CheckoutCompletePage.
Section WithPage.
Context {W : Type} {P : Page W}.

Definition confirmationHeader : string := ".complete-header".
Definition confirmationMessage : string := ".complete-text".

Definition isOrderComplete : Async W bool :=
  headerVisible <- BasePage.isVisible confirmationHeader ;;
  messageVisible <- BasePage.isVisible confirmationMessage ;;
  ret (headerVisible && messageVisible).

End WithPage.
End CheckoutCompletePage.

(** ** playwright.config.ts *)

Module Config.

(** [process.env]: a variable is absent or holds a string. *)
Definition Env : Type := string -> option string.

Record UseOptions : Type := {
  baseURL : string;
  actionTimeout : Z;
  navigationTimeout : Z;
}.

Record ExpectOptions : Type := {
  expect_timeout : Z;
}.

Record PlaywrightConfig : Type := {
  testDir : string;
  fullyParallel : bool;
  forbidOnly : bool;
  retries : Z;
  workers : Z;
  use : UseOptions;
  timeout : Z;
  expect : ExpectOptions;
}.

(** The object passed to [defineConfig]; the times are in milliseconds. *)
Definition config (env : Env) : PlaywrightConfig := {|
  testDir := "./tests";
  fullyParallel := false;
  forbidOnly := JS.truthyOpt (env "CI");
  retries := if JS.truthyOpt (env "CI") then 2 else 0;
  workers := 1;
  use := {|
    baseURL := "https://www.saucedemo.com";
    actionTimeout := 10000;
    navigationTimeout := 30000;
  |};
  timeout := 120000;
  expect := {| expect_timeout := 5000 |};
|}.

End Config.

(** ** What a page shows *)

Section PageContracts.
Context {W : Type} {P : Page W}.

(** In world [w] the elements matching [l] carry, in document order, the
    text contents [texts]; reading them leaves the world as it is. *)
Definition ShowsTexts (w : W) (l : Locator) (texts : list (option string))
  : Prop :=
  locator_count l w = (inr (List.length texts), w) /\
  forall i t, nth_error texts i = Some t ->
              locator_textContent (Nth l i) w = (inr t, w).

(** The same through [locator.all()]: the element locators it returns
    carry, in document order, the text contents [texts]. *)
Definition ListsTexts (w : W) (l : Locator) (texts : list (option string))
  : Prop :=
  exists elements,
    locator_all l w = (inr elements, w) /\
    Forall2 (fun el t => locator_textContent el w = (inr t, w))
            elements texts.

End PageContracts.

(** ** The properties in the specification's words *)

Module Spec.

(** *** Characters, by table *)

(** The [count] characters from code [first] on. *)
Fixpoint charsFrom (first count : nat) : string :=
  match count with
  | O => EmptyString
  | S count' => String (ascii_of_nat first) (charsFrom (S first) count')
  end.

Fixpoint member (c : ascii) (s : string) : bool :=
  match s with
  | EmptyString => false
  | String d s' => Ascii.eqb c d || member c s'
  end.

Fixpoint every (p : ascii -> bool) (s : string) : bool :=
  match s with
  | EmptyString => true
  | String c s' => p c && every p s'
  end.

(** The capital letters below U+0100 (A to Z, U+00C0 to U+00D6, U+00D8
    to U+00DE) and, place for place, their small letters. *)
Definition capitals : string :=
  "ABCDEFGHIJKLMNOPQRSTUVWXYZ" ++ charsFrom 192 23 ++ charsFrom 216 7.

Definition smalls : string :=
  "abcdefghijklmnopqrstuvwxyz" ++ charsFrom 224 23 ++ charsFrom 248 7.

(** [c] moved from its place in [from] to the same place in [to]. *)
Fixpoint translate (from to : string) (c : ascii) : ascii :=
  match from, to with
  | String f from', String t to' =>
      if Ascii.eqb c f then t else translate from' to' c
  | _, _ => c
  end.

Definition lowerCase (c : ascii) : ascii := translate capitals smalls c.

(** TAB, LF, VT, FF, CR, SPACE and NO-BREAK SPACE. *)
Definition whiteSpace : string :=
  charsFrom 9 5 ++ " " ++ charsFrom 160 1.

Definition isSpace (c : ascii) : bool := member c whiteSpace.

Definition isStripped (c : ascii) : bool := member c "().".

Definition isDigitChar (c : ascii) : bool := member c "0123456789".

(** Product identity normalization in the specification's words, in one
    pass over the name: lower-cased, white space to hyphens (one for each
    run), parentheses and periods stripped. *)
Fixpoint normalizeNameFrom (inRun : bool) (name : string) : string :=
  match name with
  | EmptyString => EmptyString
  | String c rest =>
      if isSpace c then
        if inRun then normalizeNameFrom true rest
        else String "-"%char (normalizeNameFrom true rest)
      else if isStripped c then normalizeNameFrom false rest
      else String (lowerCase c) (normalizeNameFrom false rest)
  end.

Definition normalizeName (name : string) : string :=
  normalizeNameFrom false name.

(** What an identifier is made of: no white space, no parenthesis or
    period, no capital letter. *)
Definition isIdChar (c : ascii) : bool :=
  negb (isSpace c) && negb (isStripped c) && negb (member c capitals).

(** The same normalization, on the character classes of the source:
    a white-space character yields a hyphen exactly when it opens a
    run, parentheses and periods yield nothing, and any other character
    yields its lower-case form. *)
Fixpoint normalizeFrom (inRun : bool) (name : string) : string :=
  match name with
  | EmptyString => EmptyString
  | String c rest =>
      if JS.isWhiteSpace c then
        if inRun then normalizeFrom true rest
        else String "-"%char (normalizeFrom true rest)
      else if JS.isParen c || JS.isDot c then normalizeFrom false rest
      else String (JS.lowerChar c) (normalizeFrom false rest)
  end.

Definition normalize (name : string) : string := normalizeFrom false name.

(** A normalized identifier has no white space, parenthesis or period left
    and is in lower case. *)
Definition isNormalChar (c : ascii) : bool :=
  negb (JS.isWhiteSpace c) && negb (JS.isParen c) && negb (JS.isDot c)
  && Ascii.eqb (JS.lowerChar c) c.

Definition normalized (id : string) : bool := JS.forallb isNormalChar id.

(** Modelled from the spec: [fixtures/test-data.json], which holds the
    product display names, is not among the sources; these are the display
    names the specification gives for the known products (section 8). *)
Definition knownProducts : list string :=
  [ "Sauce Labs Backpack"; "Sauce Labs Bike Light" ].

(** The text contents a page object keeps: those that are neither [null]
    nor empty, in the order given. *)
Fixpoint keptTexts (texts : list (option string)) : list string :=
  match texts with
  | [] => []
  | Some t :: rest => if JS.truthy t then t :: keptTexts rest
                      else keptTexts rest
  | None :: rest => keptTexts rest
  end.

Definition allDigits (s : string) : bool := every isDigitChar s.

(** Whether [s] goes on with a digit. *)
Definition digitAhead (s : string) : bool :=
  match s with
  | String c _ => isDigitChar c
  | EmptyString => false
  end.

Definition digitOf (c : ascii) : Z :=
  match c with
  | "0" => 0 | "1" => 1 | "2" => 2 | "3" => 3 | "4" => 4
  | "5" => 5 | "6" => 6 | "7" => 7 | "8" => 8 | "9" => 9
  | _ => 0
  end%char%Z.

(** The number a string of decimal digits denotes: each digit times the
    power of ten of its place. *)
Fixpoint decimal (s : string) : Z :=
  match s with
  | EmptyString => 0
  | String c s' =>
      digitOf c * 10 ^ Z.of_nat (String.length s') + decimal s'
  end%Z.

(** [text] holds, after [pre], a dollar sign followed by the digits [ip],
    a period and the digits [fp]. *)
Definition AmountAt (text pre ip fp post : string) : Prop :=
  text = pre ++ "$" ++ ip ++ "." ++ fp ++ post /\
  allDigits ip = true /\ ip <> EmptyString /\
  allDigits fp = true /\ fp <> EmptyString.

(** The first such substring: none starts further left, and it takes all
    the digits there are. *)
Definition FirstAmount (text pre ip fp post : string) : Prop :=
  AmountAt text pre ip fp post /\
  digitAhead post = false /\
  forall pre' ip' fp' post',
    AmountAt text pre' ip' fp' post' ->
    (String.length pre <= String.length pre')%nat.

Definition NoAmount (text : string) : Prop :=
  forall pre ip fp post, ~ AmountAt text pre ip fp post.

(** The numeric value of [ip.fp]: the digits read as one number, over
    ten to the number of fraction digits. *)
Definition decimalValue (ip fp : string) : Q :=
  Qred (decimal (ip ++ fp) # Z.to_pos (10 ^ Z.of_nat (String.length fp))).

(** [text] begins with a decimal integer: an optional sign, then the
    digits [ds], which are all the digits there are. *)
Definition BeginsWithInteger (text : string) (negative : bool)
    (ds rest : string) : Prop :=
  (text = ds ++ rest /\ negative = false
   \/ text = "+" ++ ds ++ rest /\ negative = false
   \/ text = "-" ++ ds ++ rest /\ negative = true) /\
  allDigits ds = true /\ ds <> EmptyString /\
  digitAhead rest = false.

Definition integerValue (negative : bool) (ds : string) : Z :=
  if negative then (- decimal ds)%Z else decimal ds.

End Spec.

(** ** Literals in a path expression *)

Module XPath.









End XPath.

(** ** Titles and names *)

Module Titles.

(** The index of the first text content that, trimmed, is [name]. *)
Fixpoint firstTitle (name : string) (texts : list (option string))
  : option nat :=
  match texts with
  | [] => None
  | t :: rest =>
      if ProductsPage.titleIs name t then Some O
      else option_map S (firstTitle name rest)
  end.

(** What the listing loops do with one text content: a name is pushed,
    trimmed, unless the text is [null] or empty. *)
Definition keptName (names : list string) (t : option string) : list string :=
  match t with
  | Some n => if JS.truthy n then names ++ [JS.trim n] else names
  | None => names
  end.

End Titles.

(** ** A page to run the page objects on *)

Module Demo.

Record Element : Type := {
  text : option string;
  visible : bool;
}.

(** The elements each selector matches, in document order, and the
    actions performed so far, latest first. *)
Record World : Type := {
  dom : list (string * list Element);
  actions : list string;
}.

Fixpoint lookup (sel : string) (d : list (string * list Element))
  : list Element :=
  match d with
  | [] => []
  | (s, es) :: d' => if String.eqb s sel then es else lookup sel d'
  end.

Fixpoint resolve (d : list (string * list Element)) (l : Locator)
  : list Element :=
  match l with
  | Loc sel => lookup sel d
  | Nth l' i =>
      match nth_error (resolve d l') i with
      | Some e => [e]
      | None => []
      end
  end.

Definition record (a : string) (w : World) : World :=
  {| dom := dom w; actions := a :: actions w |}.

(** An operation that needs exactly one element. *)
Definition onOne {A : Type} (l : Locator) (f : Element -> World -> A * World)
  : Async World A :=
  fun w =>
    match resolve (dom w) l with
    | [e] => let '(a, w') := f e w in (inr a, w')
    | [] => (inl "Timeout exceeded", w)
    | _ => (inl "strict mode violation", w)
    end.

#[export] Instance page : Page World := {
  page_goto url := fun w => (inr tt, record ("goto " ++ url) w);
  locator_click l :=
    onOne l (fun _ w =>
      (tt, record match l with
                  | Loc sel => "click " ++ sel
                  | Nth _ _ => "click nth"
                  end w));
  locator_fill l t := onOne l (fun _ w => (tt, record ("fill " ++ t) w));
  locator_isVisible l := fun w =>
    match resolve (dom w) l with
    | [] => (inr false, w)
    | [e] => (inr (visible e), w)
    | _ => (inl "strict mode violation", w)
    end;
  locator_textContent l := onOne l (fun e w => (text e, w));
  locator_count l := fun w => (inr (List.length (resolve (dom w) l)), w);
  locator_all l := fun w =>
    (inr (map (Nth l) (seq 0 (List.length (resolve (dom w) l)))), w);
}.

#[export] Instance texts : LocatorTexts World := {
  locator_allTextContents l := fun w =>
    (inr (map (fun e => match text e with Some t => t | None => "" end)
              (resolve (dom w) l)), w);
}.

(** The same page, except that one more element is counted than can be
    read: the last one was detached in between. *)
Definition stale : Page World := {|
  page_goto := page_goto (Page := page);
  locator_click := locator_click (Page := page);
  locator_fill := locator_fill (Page := page);
  locator_isVisible := locator_isVisible (Page := page);
  locator_textContent := locator_textContent (Page := page);
  locator_count l := fun w => (inr (S (List.length (resolve (dom w) l))), w);
  locator_all := locator_all (Page := page);
|}.

Definition shown (t : string) : Element :=
  {| text := Some t; visible := true |}.

(** An inventory page with two products, one of them in the cart. *)
Definition inventory : World := {|
  dom :=
    [ (".inventory_item_name",
       [ shown "Sauce Labs Backpack"; shown " Sauce Labs Bike Light " ]);
      (".inventory_item_price", [ shown "$29.99"; shown "$9.99" ]);
      (".shopping_cart_badge", [ shown "1" ]);
      (".summary_subtotal_label", [ shown "Item total: $39.98" ]);
      (".summary_tax_label", [ shown "Tax: $3.20" ]);
      (".summary_total_label", [ shown "Total: $43.18" ]) ];
  actions := [];
|}.

(** A process environment in which only [CI] may be present. *)
Definition envWithCI (ci : option string) : Config.Env :=
  fun name => if String.eqb name "CI" then ci else None.

(** The same page with nothing in the cart: no badge is rendered. *)
Definition emptyCart : World := {|
  dom := [ (".inventory_item_name", [ shown "Sauce Labs Backpack" ]) ];
  actions := [];
|}.

(** An inventory page showing the add-to-cart button of one product. *)
Definition backpackButton : string :=
  "[data-test=" ++ dquote ++ "add-to-cart-sauce-labs-backpack" ++ dquote
    ++ "]".

Definition withButton : World := {|
  dom := [ (backpackButton, [ shown "Add to cart" ]) ];
  actions := [];
|}.

(** The login page; nothing else is on it. *)
Definition loginForm : World := {|
  dom :=
    [ (dataTest "username", [ {| text := Some ""; visible := true |} ]);
      (dataTest "password", [ {| text := Some ""; visible := true |} ]);
      (dataTest "login-button", [ {| text := Some ""; visible := true |} ]) ];
  actions := [];
|}.

(** A login page whose password field is missing. *)
Definition brokenLoginForm : World := {|
  dom :=
    [ (dataTest "username", [ {| text := Some ""; visible := true |} ]);
      (dataTest "login-button", [ {| text := Some ""; visible := true |} ]) ];
  actions := [];
|}.

(** A completion page whose header appears twice and whose message is
    shown. *)
Definition doubledHeader : World := {|
  dom :=
    [ (".complete-header", [ {| text := Some "Thank you for your order!";
                                visible := true |};
                             {| text := Some "Thank you for your order!";
                                visible := true |} ]);
      (".complete-text", [ {| text := Some "Your order has been dispatched";
                              visible := true |} ]) ];
  actions := [];
|}.

(** A page whose cart badge reads [t]. *)
Definition withBadge (t : string) : World := {|
  dom := [ (".shopping_cart_badge", [ shown t ]) ];
  actions := [];
|}.

(** An overview page whose tax label reads [t]. *)
Definition withTax (t : string) : World := {|
  dom := [ (".summary_tax_label", [ shown t ]) ];
  actions := [];
|}.

(** [n] zeros. *)
Fixpoint zeros (n : nat) : string :=
  match n with
  | O => EmptyString
  | S n' => String "0"%char (zeros n')
  end.

(** A tax label with an amount of 310 digits before the period. *)
Definition hugeTax : string := "Tax: $1" ++ zeros 309 ++ ".0".

(** An overview page whose total label carries no amount. *)
Definition blankSummary : World := {|
  dom := [ (".summary_total_label", [ shown "Total: " ]) ];
  actions := [];
|}.

(** A page on which the badge selector is ambiguous, so that the
    visibility check throws. *)
Definition ambiguous : World := {|
  dom := [ (".shopping_cart_badge", [ shown "1"; shown "2" ]) ];
  actions := [];
|}.

End Demo.

(** * Properties *)

#[local] Existing Instance Demo.page.
#[local] Existing Instance Demo.texts.

(** ** Characters *)

Ltac each_char c :=
  destruct c as [[|] [|] [|] [|] [|] [|] [|] [|]]; vm_compute;
  try reflexivity; try discriminate; auto.

Lemma isWhiteSpace_lowerChar (c : ascii) :
  JS.isWhiteSpace (JS.lowerChar c) = JS.isWhiteSpace c.
Proof. each_char c. Qed.

Lemma isParen_lowerChar (c : ascii) :
  JS.isParen (JS.lowerChar c) = JS.isParen c.
Proof. each_char c. Qed.

Lemma isDot_lowerChar (c : ascii) :
  JS.isDot (JS.lowerChar c) = JS.isDot c.
Proof. each_char c. Qed.

Lemma lowerChar_isWhiteSpace (c : ascii) :
  JS.isWhiteSpace c = true -> JS.lowerChar c = c.
Proof. each_char c. Qed.

Lemma isParen_not_isDot (c : ascii) :
  JS.isParen c = true -> JS.isDot c = false.
Proof. each_char c. Qed.

Lemma isNormalChar_lowerChar (c : ascii) :
  JS.isWhiteSpace c = false -> JS.isParen c = false -> JS.isDot c = false ->
  Spec.isNormalChar (JS.lowerChar c) = true.
Proof. each_char c. Qed.

Lemma isNormalChar_inv (c : ascii) :
  Spec.isNormalChar c = true ->
  JS.isWhiteSpace c = false /\ JS.isParen c = false /\ JS.isDot c = false
  /\ JS.lowerChar c = c.
Proof. each_char c. Qed.

Lemma isDigit_not_isWhiteSpace (c : ascii) :
  JS.isDigit c = true -> JS.isWhiteSpace c = false.
Proof. each_char c. Qed.

Lemma isDigit_not_sign (c : ascii) :
  JS.isDigit c = true ->
  (JS.code c =? 45)%N = false /\ (JS.code c =? 43)%N = false.
Proof. each_char c. Qed.

Lemma isDigit_not_isDot (c : ascii) :
  JS.isDigit c = true -> JS.isDot c = false.
Proof. each_char c. Qed.

Lemma isDigit_not_I (c : ascii) :
  JS.isDigit c = true -> Ascii.eqb "I"%char c = false.
Proof. each_char c. Qed.

Lemma isDollar_eq (c : ascii) : JS.isDollar c = true -> c = "$"%char.
Proof. each_char c. Qed.

Lemma isDot_eq (c : ascii) : JS.isDot c = true -> c = "."%char.
Proof. each_char c. Qed.

(** The tables of the specification and the character classes of the
    source agree. *)
Lemma lowerCase_lowerChar (c : ascii) : Spec.lowerCase c = JS.lowerChar c.
Proof. each_char c. Qed.

Lemma isSpace_isWhiteSpace (c : ascii) : Spec.isSpace c = JS.isWhiteSpace c.
Proof. each_char c. Qed.

Lemma isStripped_isParen_isDot (c : ascii) :
  Spec.isStripped c = JS.isParen c || JS.isDot c.
Proof. each_char c. Qed.

Lemma isDigitChar_isDigit (c : ascii) : Spec.isDigitChar c = JS.isDigit c.
Proof. each_char c. Qed.

Lemma isIdChar_isNormalChar (c : ascii) :
  Spec.isNormalChar c = true -> Spec.isIdChar c = true.
Proof. each_char c. Qed.

Lemma digitOf_digitValue (c : ascii) :
  JS.isDigit c = true -> Z.of_N (Num.digitValue c) = Spec.digitOf c.
Proof. each_char c. Qed.

(** ** Strings *)

Lemma append_nil_r (s : string) : s ++ "" = s.
Proof. induction s; simpl; congruence. Qed.

Lemma append_assoc (a b c : string) : (a ++ b) ++ c = a ++ b ++ c.
Proof. induction a; simpl; congruence. Qed.

Lemma length_append (a b : string) :
  String.length (a ++ b) = (String.length a + String.length b)%nat.
Proof. induction a; simpl; congruence. Qed.

Lemma takeWhile_dropWhile (p : ascii -> bool) (s : string) :
  JS.takeWhile p s ++ JS.dropWhile p s = s.
Proof.
  induction s as [|c s IH]; simpl; [reflexivity|].
  destruct (p c); simpl; congruence.
Qed.

Lemma forallb_takeWhile (p : ascii -> bool) (s : string) :
  JS.forallb p (JS.takeWhile p s) = true.
Proof.
  induction s as [|c s IH]; simpl; [reflexivity|].
  destruct (p c) eqn:E; simpl; [rewrite E; exact IH | reflexivity].
Qed.

(** A run of the class followed by something that does not begin with the
    class is split by [takeWhile] and [dropWhile] exactly there. *)
Lemma takeWhile_app (p : ascii -> bool) (a b : string) :
  JS.forallb p a = true -> JS.takeWhile p b = "" ->
  JS.takeWhile p (a ++ b) = a.
Proof.
  induction a as [|c a IH]; simpl; intros Ha Hb; [exact Hb|].
  apply andb_true_iff in Ha as [Hc Ha]. rewrite Hc, IH; auto.
Qed.

Lemma dropWhile_app (p : ascii -> bool) (a b : string) :
  JS.forallb p a = true -> JS.takeWhile p b = "" ->
  JS.dropWhile p (a ++ b) = b.
Proof.
  induction a as [|c a IH]; simpl; intros Ha Hb.
  - destruct b as [|d b]; simpl in *; [reflexivity|].
    destruct (p d); [discriminate | reflexivity].
  - apply andb_true_iff in Ha as [Hc Ha]. rewrite Hc. auto.
Qed.

Lemma takeWhile_nil_dropWhile (p : ascii -> bool) (s : string) :
  JS.takeWhile p (JS.dropWhile p s) = "".
Proof.
  induction s as [|c s IH]; simpl; [reflexivity|].
  destruct (p c) eqn:E; [exact IH | simpl; rewrite E; reflexivity].
Qed.

Lemma dropWhile_toLowerCase (s : string) :
  JS.dropWhile JS.isWhiteSpace (JS.toLowerCase s)
  = JS.toLowerCase (JS.dropWhile JS.isWhiteSpace s).
Proof.
  induction s as [|c s IH]; simpl; [reflexivity|].
  rewrite isWhiteSpace_lowerChar.
  destruct (JS.isWhiteSpace c); [exact IH | reflexivity].
Qed.

(** After a match of [C+] the scan resumes behind the whole run. *)
Lemma replaceAllPlus_match (p : ascii -> bool) (r : string) (c : ascii)
    (s : string) :
  p c = true ->
  JS.replaceAllPlus p r (String c s)
  = r ++ JS.replaceAllPlus p r (JS.dropWhile p s).
Proof.
  intros Hc. simpl. rewrite Hc. f_equal.
  induction s as [|d s IH]; simpl; [reflexivity|].
  destruct (p d) eqn:Hd; [exact IH|].
  simpl. rewrite Hd. reflexivity.
Qed.

Lemma replaceAllPlus_skip (p : ascii -> bool) (r : string) (c : ascii)
    (s : string) :
  p c = false ->
  JS.replaceAllPlus p r (String c s) = String c (JS.replaceAllPlus p r s).
Proof. intros Hc. simpl. rewrite Hc. reflexivity. Qed.

(** ** Product identity normalization *)

Lemma normalizeFrom_dropWhile (s : string) :
  Spec.normalizeFrom true s
  = Spec.normalizeFrom true (JS.dropWhile JS.isWhiteSpace s).
Proof.
  induction s as [|c s IH]; simpl; [reflexivity|].
  destruct (JS.isWhiteSpace c) eqn:E; [exact IH|].
  simpl. rewrite E. reflexivity.
Qed.

Lemma getProductId_normalizeFrom (s : string) :
  ProductsPage.getProductId s = Spec.normalizeFrom false s /\
  ProductsPage.getProductId (JS.dropWhile JS.isWhiteSpace s)
  = Spec.normalizeFrom true s.
Proof.
  unfold ProductsPage.getProductId.
  induction s as [|c s [IH1 IH2]]; [split; reflexivity|].
  cbn [JS.toLowerCase JS.dropWhile Spec.normalizeFrom].
  destruct (JS.isWhiteSpace c) eqn:Ews.
  - split; [|exact IH2].
    rewrite replaceAllPlus_match by (rewrite isWhiteSpace_lowerChar; exact Ews).
    rewrite dropWhile_toLowerCase. cbn. f_equal. exact IH2.
  - assert (Hstep :
      JS.replaceAllChar JS.isDot ""
        (JS.replaceAllChar JS.isParen ""
           (JS.replaceAllPlus JS.isWhiteSpace "-"
              (String (JS.lowerChar c) (JS.toLowerCase s))))
      = (if JS.isParen c || JS.isDot c
         then Spec.normalizeFrom false s
         else String (JS.lowerChar c) (Spec.normalizeFrom false s))).
    { rewrite replaceAllPlus_skip
        by (rewrite isWhiteSpace_lowerChar; exact Ews).
      cbn [JS.replaceAllChar]. rewrite isParen_lowerChar.
      destruct (JS.isParen c) eqn:Ep; cbn [orb append].
      - exact IH1.
      - cbn [JS.replaceAllChar]. rewrite isDot_lowerChar.
        destruct (JS.isDot c); cbn [append]; rewrite IH1; reflexivity. }
    split; exact Hstep.
Qed.

Lemma getProductId_normalize (s : string) :
  ProductsPage.getProductId s = Spec.normalize s.
Proof. apply getProductId_normalizeFrom. Qed.

Lemma normalized_normalizeFrom (b : bool) (s : string) :
  Spec.normalized (Spec.normalizeFrom b s) = true.
Proof.
  revert b. induction s as [|c s IH]; intros b; simpl; [reflexivity|].
  destruct (JS.isWhiteSpace c) eqn:Ews.
  - destruct b; [apply IH|]. unfold Spec.normalized. simpl. apply IH.
  - destruct (JS.isParen c) eqn:Ep; simpl; [apply IH|].
    destruct (JS.isDot c) eqn:Ed; simpl; [apply IH|].
    unfold Spec.normalized. simpl.
    rewrite isNormalChar_lowerChar by assumption. apply IH.
Qed.

Lemma normalizeFrom_normalized (b : bool) (s : string) :
  Spec.normalized s = true -> Spec.normalizeFrom b s = s.
Proof.
  revert b. induction s as [|c s IH]; intros b H; simpl; [reflexivity|].
  unfold Spec.normalized in H. simpl in H.
  apply andb_true_iff in H as [Hc Hs].
  apply isNormalChar_inv in Hc as (Ews & Ep & Ed & El).
  rewrite Ews, Ep, Ed, El. simpl. f_equal. apply IH. exact Hs.
Qed.

Lemma getProductId_normalized (s : string) :
  Spec.normalized (ProductsPage.getProductId s) = true.
Proof. rewrite getProductId_normalize. apply normalized_normalizeFrom. Qed.

Lemma getProductId_fixed (s : string) :
  Spec.normalized s = true -> ProductsPage.getProductId s = s.
Proof.
  intros H. rewrite getProductId_normalize. apply normalizeFrom_normalized.
  exact H.
Qed.

Lemma normalizeNameFrom_normalizeFrom (b : bool) (s : string) :
  Spec.normalizeNameFrom b s = Spec.normalizeFrom b s.
Proof.
  revert b. induction s as [|c s IH]; intros b; [reflexivity|].
  cbn [Spec.normalizeNameFrom Spec.normalizeFrom].
  rewrite isSpace_isWhiteSpace, isStripped_isParen_isDot,
    lowerCase_lowerChar, !IH.
  reflexivity.
Qed.

Lemma getProductId_normalizeName (s : string) :
  ProductsPage.getProductId s = Spec.normalizeName s.
Proof.
  rewrite getProductId_normalize. unfold Spec.normalizeName, Spec.normalize.
  symmetry. apply normalizeNameFrom_normalizeFrom.
Qed.

Lemma every_isIdChar_normalized (s : string) :
  Spec.normalized s = true -> Spec.every Spec.isIdChar s = true.
Proof.
  unfold Spec.normalized.
  induction s as [|c s IH]; simpl; [reflexivity|]. intros H.
  apply andb_true_iff in H as [Hc Hs].
  rewrite (isIdChar_isNormalChar c Hc). simpl. apply IH. exact Hs.
Qed.

Example getProductId_backpack :
  ProductsPage.getProductId "Sauce Labs Backpack" = "sauce-labs-backpack".
Proof. reflexivity. Qed.

Example getProductId_red_shirt :
  ProductsPage.getProductId "Test.allTheThings() T-Shirt (Red)"
  = "testallthethings-t-shirt-red".
Proof. reflexivity. Qed.

Example getProductId_runs :
  ProductsPage.getProductId (" Sauce  Labs" ++ String "009"%char " (Bolt). ")
  = "-sauce-labs-bolt-".
Proof. reflexivity. Qed.

(** C1: for every product display name, [getProductId] lower-cases it,
    replaces every run of white space with one hyphen and strips
    parentheses and periods; the result holds no white space, parenthesis,
    period or capital letter, and it is the identifier the generated
    locators carry. *)
Theorem getProductId_normalizes (name : string) :
  ProductsPage.getProductId name = Spec.normalizeName name /\
  Spec.every Spec.isIdChar (ProductsPage.getProductId name) = true /\
  ProductsPage.getAddToCartButtonSelector name
  = "[data-test=" ++ dquote ++ "add-to-cart-" ++ Spec.normalizeName name
      ++ dquote ++ "]" /\
  ProductsPage.getRemoveButtonSelector name
  = "[data-test=" ++ dquote ++ "remove-" ++ Spec.normalizeName name
      ++ dquote ++ "]".
Proof.
  unfold ProductsPage.getAddToCartButtonSelector,
    ProductsPage.getRemoveButtonSelector.
  split; [apply getProductId_normalizeName|].
  split; [apply every_isIdChar_normalized, getProductId_normalized|].
  rewrite getProductId_normalizeName. split; reflexivity.
Qed.

Lemma getProductId_normalizes_witness :
  ProductsPage.getProductId "Test.allTheThings() T-Shirt (Red)"
  = "testallthethings-t-shirt-red" /\
  ProductsPage.getProductId "Sauce  Labs Bike Light"
  = "sauce-labs-bike-light" /\
  ProductsPage.getRemoveButtonSelector "Sauce Labs Backpack"
  = "[data-test=" ++ dquote ++ "remove-sauce-labs-backpack" ++ dquote ++ "]".
Proof.
  split; [|split].
  - rewrite (proj1 (getProductId_normalizes
                      "Test.allTheThings() T-Shirt (Red)")).
    reflexivity.
  - rewrite (proj1 (getProductId_normalizes "Sauce  Labs Bike Light")).
    reflexivity.
  - rewrite (proj2 (proj2 (proj2 (getProductId_normalizes
                                    "Sauce Labs Backpack")))).
    reflexivity.
Defined.

(** C2: [getProductId] is idempotent, a normalized identifier comes back
    unchanged, and no two distinct display names of the known products
    normalize to the same identifier. *)
Theorem getProductId_idempotent_collision_free :
  (forall name,
     ProductsPage.getProductId (ProductsPage.getProductId name)
     = ProductsPage.getProductId name) /\
  (forall id, Spec.normalized id = true -> ProductsPage.getProductId id = id) /\
  (forall a b,
     In a Spec.knownProducts -> In b Spec.knownProducts ->
     ProductsPage.getProductId a = ProductsPage.getProductId b -> a = b).
Proof.
  split; [|split].
  - intros name. apply getProductId_fixed, getProductId_normalized.
  - exact getProductId_fixed.
  - intros a b Ha Hb.
    simpl in Ha, Hb.
    destruct Ha as [<-|[<-|[]]]; destruct Hb as [<-|[<-|[]]];
      vm_compute; intros H; try reflexivity; discriminate H.
Qed.

Lemma getProductId_idempotent_collision_free_witness :
  ProductsPage.getProductId "sauce-labs-backpack" = "sauce-labs-backpack" /\
  "Sauce Labs Bike Light" = "Sauce Labs Bike Light".
Proof.
  split.
  - apply (proj1 (proj2 getProductId_idempotent_collision_free)).
    reflexivity.
  - apply (proj2 (proj2 getProductId_idempotent_collision_free));
      simpl; auto.
Defined.

(** C3: for every product name, [addProductToCart] clicks exactly the
    selector [[data-test="add-to-cart-<id>"]] and [removeProductFromCart]
    exactly [[data-test="remove-<id>"]], with [<id>] the normalized product
    identifier: the name lower-cased, its white space turned to hyphens,
    its parentheses and periods stripped. *)
Theorem addProductToCart_removeProductFromCart_click
    {W : Type} {P : Page W} (name : string) :
  ProductsPage.addProductToCart name
  = locator_click
      (Loc ("[data-test=" ++ dquote ++ "add-to-cart-"
            ++ Spec.normalizeName name ++ dquote ++ "]")) /\
  ProductsPage.removeProductFromCart name
  = locator_click
      (Loc ("[data-test=" ++ dquote ++ "remove-"
            ++ Spec.normalizeName name ++ dquote ++ "]")).
Proof.
  unfold ProductsPage.addProductToCart, ProductsPage.removeProductFromCart,
    ProductsPage.getAddToCartButtonSelector,
    ProductsPage.getRemoveButtonSelector, BasePage.click.
  rewrite getProductId_normalizeName. split; reflexivity.
Qed.

Lemma addProductToCart_removeProductFromCart_click_witness :
  ProductsPage.addProductToCart "Sauce Labs Backpack" Demo.withButton
  = (inr tt,
     {| Demo.dom := Demo.dom Demo.withButton;
        Demo.actions :=
          [ "click [data-test=" ++ dquote
            ++ "add-to-cart-sauce-labs-backpack" ++ dquote ++ "]" ] |}) /\
  ProductsPage.removeProductFromCart "Sauce Labs Backpack" Demo.withButton
  = (inl "Timeout exceeded", Demo.withButton).
Proof.
  split.
  - rewrite (proj1 (addProductToCart_removeProductFromCart_click
                      (P := Demo.page) "Sauce Labs Backpack")).
    reflexivity.
  - rewrite (proj2 (addProductToCart_removeProductFromCart_click
                      (P := Demo.page) "Sauce Labs Backpack")).
    reflexivity.
Defined.

Example addProductToCart_backpack :
  ProductsPage.addProductToCart "Sauce Labs Backpack" Demo.withButton
  = (inr tt,
     {| Demo.dom := Demo.dom Demo.withButton;
        Demo.actions := [ "click " ++ Demo.backpackButton ] |}).
Proof. reflexivity. Qed.

Example addProductToCart_absent :
  ProductsPage.addProductToCart "Sauce Labs Onesie" Demo.withButton
  = (inl "Timeout exceeded", Demo.withButton).
Proof. reflexivity. Qed.

(** C4: [isVisible] returns what the visibility check returns when the
    check succeeds, and returns false when the check throws; it never
    throws itself. *)
Theorem isVisible_swallows_errors
    {W : Type} {P : Page W} (selector : string) (w : W) :
  (forall b w', locator_isVisible (Loc selector) w = (inr b, w') ->
                BasePage.isVisible selector w = (inr b, w')) /\
  (forall e w', locator_isVisible (Loc selector) w = (inl e, w') ->
                BasePage.isVisible selector w = (inr false, w')) /\
  (exists b w', BasePage.isVisible selector w = (inr b, w')).
Proof.
  unfold BasePage.isVisible, tryCatch, ret.
  destruct (locator_isVisible (Loc selector) w) as [[e|b] w1].
  - repeat split; try discriminate.
    + intros e' w' H. inversion H. reflexivity.
    + exists false, w1. reflexivity.
  - repeat split; try discriminate.
    + intros b' w' H. exact H.
    + exists b, w1. reflexivity.
Qed.

Lemma isVisible_swallows_errors_witness :
  BasePage.isVisible ".shopping_cart_badge" Demo.ambiguous
  = (inr false, Demo.ambiguous) /\
  BasePage.isVisible ".shopping_cart_badge" Demo.emptyCart
  = (inr false, Demo.emptyCart) /\
  BasePage.isVisible ".shopping_cart_badge" Demo.inventory
  = (inr true, Demo.inventory).
Proof.
  split; [|split].
  - apply (proj1 (proj2 (isVisible_swallows_errors
                           ".shopping_cart_badge" Demo.ambiguous))
             "strict mode violation").
    reflexivity.
  - apply (proj1 (isVisible_swallows_errors
                    ".shopping_cart_badge" Demo.emptyCart)).
    reflexivity.
  - apply (proj1 (isVisible_swallows_errors
                    ".shopping_cart_badge" Demo.inventory)).
    reflexivity.
Defined.

(** ** Cart item removal *)

Lemma append_cancel_l (a b c : string) : a ++ b = a ++ c -> b = c.
Proof.
  induction a as [|x a IH]; simpl; intros H; [exact H|].
  injection H as H. auto.
Qed.

Lemma append_cancel_r (a b c : string) : a ++ c = b ++ c -> a = b.
Proof.
  revert b. induction a as [|x a IH]; intros [|y b] H; simpl in H.
  - reflexivity.
  - apply (f_equal String.length) in H. simpl in H.
    rewrite length_append in H. lia.
  - apply (f_equal String.length) in H. simpl in H.
    rewrite length_append in H. lia.
  - injection H as -> H. f_equal. auto.
Qed.





(** C7: for every relative path, [goto] navigates the page to the base
    URL followed by the path. *)
Theorem goto_baseURL_path {W : Type} {P : Page W} (path : string) :
  BasePage.goto path = page_goto ("https://www.saucedemo.com" ++ path) /\
  (forall env,
     BasePage.goto path
     = page_goto (Config.baseURL (Config.use (Config.config env)) ++ path)).
Proof. split; reflexivity. Qed.

(** ** Configuration *)

(** C8, as stated, fails: a [CI] variable that is set, but to the empty
    string, is falsy, and the retry count stays 0. *)
Lemma retries_with_CI_set_to_empty :
  Demo.envWithCI (Some "") "CI" = Some "" /\
  Config.retries (Config.config (Demo.envWithCI (Some ""))) = 0%Z /\
  ~ (forall (env : Config.Env) (v : string),
       env "CI" = Some v -> Config.retries (Config.config env) = 2%Z).
Proof.
  split; [reflexivity|]. split; [reflexivity|].
  intros H. specialize (H (Demo.envWithCI (Some "")) "" eq_refl).
  discriminate H.
Qed.

(** C8, amended: the action timeout is 10 seconds, the navigation timeout
    30 seconds, the scenario timeout 120 seconds, the assertion timeout
    5 seconds and there is 1 worker; the retry count is 0 when [CI] is
    absent or empty and 2 when [CI] is set to a non-empty value. *)
Theorem config_timeouts_retries_workers (env : Config.Env) :
  let c := Config.config env in
  Config.actionTimeout (Config.use c) = (10 * 1000)%Z /\
  Config.navigationTimeout (Config.use c) = (30 * 1000)%Z /\
  Config.timeout c = (120 * 1000)%Z /\
  Config.expect_timeout (Config.expect c) = (5 * 1000)%Z /\
  Config.workers c = 1%Z /\
  (env "CI" = None -> Config.retries c = 0%Z) /\
  (env "CI" = Some "" -> Config.retries c = 0%Z) /\
  (forall v, env "CI" = Some v -> v <> "" -> Config.retries c = 2%Z).
Proof.
  cbn. repeat split.
  - intros ->. reflexivity.
  - intros ->. reflexivity.
  - intros v -> Hv. destruct v; [congruence | reflexivity].
Qed.

Lemma config_timeouts_retries_workers_witness :
  Config.retries (Config.config (Demo.envWithCI (Some "true"))) = 2%Z /\
  Config.retries (Config.config (Demo.envWithCI None)) = 0%Z.
Proof.
  split.
  - destruct (config_timeouts_retries_workers (Demo.envWithCI (Some "true")))
      as (_ & _ & _ & _ & _ & _ & _ & Hset).
    apply (Hset "true"); [reflexivity | discriminate].
  - destruct (config_timeouts_retries_workers (Demo.envWithCI None))
      as (_ & _ & _ & _ & _ & Habsent & _).
    apply Habsent. reflexivity.
Defined.

(** ** Lists of texts *)

Section TextLists.
Context {W : Type} {P : Page W}.

Lemma getProductNames_loop_texts (l : Locator) (w : W)
    (texts : list (option string)) :
  forall (i : nat) (names : list string),
    (forall j t, nth_error texts j = Some t ->
                 locator_textContent (Nth l (i + j)) w = (inr t, w)) ->
    ProductsPage.getProductNames_loop l (List.length texts) i names w
    = (inr (names ++ map JS.trim (Spec.keptTexts texts))%list, w).
Proof.
  induction texts as [|t texts IH]; intros i names H.
  - simpl. rewrite app_nil_r. reflexivity.
  - cbn [List.length ProductsPage.getProductNames_loop]. unfold bind.
    pose proof (H 0%nat t eq_refl) as H0. rewrite Nat.add_0_r in H0.
    rewrite H0. rewrite IH.
    + destruct t as [t|]; [destruct t as [|c t]|]; cbn [JS.truthy Spec.keptTexts];
        try reflexivity.
      rewrite <- app_assoc. reflexivity.
    + intros j t' Hj. rewrite Nat.add_succ_l, <- Nat.add_succ_r.
      apply H. exact Hj.
Qed.

Lemma getProductPrices_loop_texts (l : Locator) (w : W)
    (texts : list (option string)) :
  forall (i : nat) (prices : list Num.number),
    (forall j t, nth_error texts j = Some t ->
                 locator_textContent (Nth l (i + j)) w = (inr t, w)) ->
    ProductsPage.getProductPrices_loop l (List.length texts) i prices w
    = (inr (prices
            ++ map (fun t => Num.parseFloat
                               (JS.replaceFirstChar JS.isDollar "" t))
                   (Spec.keptTexts texts))%list, w).
Proof.
  induction texts as [|t texts IH]; intros i prices H.
  - simpl. rewrite app_nil_r. reflexivity.
  - cbn [List.length ProductsPage.getProductPrices_loop]. unfold bind.
    pose proof (H 0%nat t eq_refl) as H0. rewrite Nat.add_0_r in H0.
    rewrite H0. rewrite IH.
    + destruct t as [t|]; [destruct t as [|c t]|]; cbn [JS.truthy Spec.keptTexts];
        try reflexivity.
      rewrite <- app_assoc. reflexivity.
    + intros j t' Hj. rewrite Nat.add_succ_l, <- Nat.add_succ_r.
      apply H. exact Hj.
Qed.

Lemma getCartItemNames_loop_texts (w : W) (elements : list Locator)
    (texts : list (option string)) :
  Forall2 (fun el t => locator_textContent el w = (inr t, w)) elements texts ->
  forall names,
    CartPage.getCartItemNames_loop elements names w
    = (inr (names ++ map JS.trim (Spec.keptTexts texts))%list, w).
Proof.
  induction 1 as [|el t elements texts Hel _ IH]; intros names.
  - simpl. rewrite app_nil_r. reflexivity.
  - cbn [CartPage.getCartItemNames_loop]. unfold bind. rewrite Hel, IH.
    destruct t as [t|]; [destruct t as [|c t]|]; cbn [JS.truthy Spec.keptTexts];
      try reflexivity.
    rewrite <- app_assoc. reflexivity.
Qed.

End TextLists.

(** C5: on every DOM snapshot, [getProductNames], [getProductPrices] and
    [getCartItemNames] return their values in the order the matching
    elements appear in the document: each name trimmed, each price parsed
    from its text without its dollar sign; a price text that begins with
    the dollar sign is parsed from what follows it. *)
Theorem texts_in_document_order
    {W : Type} {P : Page W} (w : W) (texts : list (option string)) :
  (ShowsTexts w (Loc ".inventory_item_name") texts ->
   ProductsPage.getProductNames w
   = (inr (map JS.trim (Spec.keptTexts texts)), w)) /\
  (ShowsTexts w (Loc ".inventory_item_price") texts ->
   ProductsPage.getProductPrices w
   = (inr (map (fun t => Num.parseFloat
                           (JS.replaceFirstChar JS.isDollar "" t))
               (Spec.keptTexts texts)), w)) /\
  (ListsTexts w (Loc ".inventory_item_name") texts ->
   CartPage.getCartItemNames w
   = (inr (map JS.trim (Spec.keptTexts texts)), w)) /\
  (forall amount,
     Num.parseFloat (JS.replaceFirstChar JS.isDollar "" ("$" ++ amount))
     = Num.parseFloat amount).
Proof.
  split; [|split; [|split]].
  - intros [Hcount Htext]. unfold ProductsPage.getProductNames, bind.
    change ProductsPage.productName with ".inventory_item_name".
    rewrite Hcount. apply (getProductNames_loop_texts _ w texts 0 []).
    exact Htext.
  - intros [Hcount Htext]. unfold ProductsPage.getProductPrices, bind.
    change ProductsPage.productPrice with ".inventory_item_price".
    rewrite Hcount. apply (getProductPrices_loop_texts _ w texts 0 []).
    exact Htext.
  - intros (elements & Hall & Htexts). unfold CartPage.getCartItemNames, bind.
    change CartPage.cartItemName with ".inventory_item_name".
    rewrite Hall. apply (getCartItemNames_loop_texts w elements texts Htexts []).
  - reflexivity.
Qed.

Lemma texts_in_document_order_witness :
  ProductsPage.getProductNames Demo.inventory
  = (inr [ "Sauce Labs Backpack"; "Sauce Labs Bike Light" ], Demo.inventory) /\
  ProductsPage.getProductPrices Demo.inventory
  = (inr [ Num.Finite (8441434551552573 # 281474976710656);
           Num.Finite (5623870034678907 # 562949953421312) ],
     Demo.inventory) /\
  CartPage.getCartItemNames Demo.inventory
  = (inr [ "Sauce Labs Backpack"; "Sauce Labs Bike Light" ], Demo.inventory).
Proof.
  split; [|split].
  - apply (proj1 (texts_in_document_order Demo.inventory
                    [ Some "Sauce Labs Backpack";
                      Some " Sauce Labs Bike Light " ])).
    split; [reflexivity|].
    intros [|[|[|i]]] t H; simpl in H; inversion H; reflexivity.
  - etransitivity;
      [apply (proj1 (proj2 (texts_in_document_order Demo.inventory
                              [ Some "$29.99"; Some "$9.99" ])))
      | vm_compute; reflexivity].
    split; [reflexivity|].
    intros [|[|[|i]]] t H; simpl in H; inversion H; reflexivity.
  - apply (proj1 (proj2 (proj2 (texts_in_document_order Demo.inventory
                                  [ Some "Sauce Labs Backpack";
                                    Some " Sauce Labs Bike Light " ])))).
    exists [ Nth (Loc ".inventory_item_name") 0;
             Nth (Loc ".inventory_item_name") 1 ].
    split; [reflexivity|].
    repeat constructor.
Defined.

(** ** Trimmed text *)

Lemma dropWhile_head (p : ascii -> bool) (s : string) :
  JS.dropWhile p s = "" \/
  exists c t, JS.dropWhile p s = String c t /\ p c = false.
Proof.
  induction s as [|c s IH]; simpl; [left; reflexivity|].
  destruct (p c) eqn:E; [exact IH|].
  right. exists c, s. split; [reflexivity | exact E].
Qed.

Lemma dropWhileEnd_head (p : ascii -> bool) (c : ascii) (s : string) :
  p c = false -> exists t, JS.dropWhileEnd p (String c s) = String c t.
Proof.
  intros E. simpl. destruct (JS.dropWhileEnd p s) as [|d t].
  - rewrite E. exists "". reflexivity.
  - exists (String d t). reflexivity.
Qed.

(** A trimmed string does not begin with white space. *)
Lemma dropWhile_trim (s : string) :
  JS.dropWhile JS.isWhiteSpace (JS.trim s) = JS.trim s.
Proof.
  unfold JS.trim.
  destruct (dropWhile_head JS.isWhiteSpace s) as [->|(c & t & -> & E)];
    [reflexivity|].
  destruct (dropWhileEnd_head JS.isWhiteSpace c t E) as [u ->].
  simpl. rewrite E. reflexivity.
Qed.

Lemma trimOrEmpty_trim (raw : option string) :
  BasePage.trimOrEmpty raw
  = match raw with Some t => JS.trim t | None => "" end.
Proof.
  destruct raw as [t|]; [|reflexivity]. unfold BasePage.trimOrEmpty.
  destruct (JS.trim t); reflexivity.
Qed.

Lemma dropWhile_trimOrEmpty (raw : option string) :
  JS.dropWhile JS.isWhiteSpace (BasePage.trimOrEmpty raw)
  = BasePage.trimOrEmpty raw.
Proof.
  rewrite trimOrEmpty_trim. destruct raw; [apply dropWhile_trim | reflexivity].
Qed.

(** ** Integers at the start of a text *)

Lemma code_minus (c : ascii) : (JS.code c =? 45)%N = true -> c = "-"%char.
Proof. each_char c. Qed.

Lemma code_plus (c : ascii) : (JS.code c =? 43)%N = true -> c = "+"%char.
Proof. each_char c. Qed.

Lemma truthy_nonempty (s : string) : JS.truthy s = true <-> s <> "".
Proof. destruct s; simpl; split; congruence. Qed.

Lemma Qred_inject_Z (z : Z) : Qred (inject_Z z) = inject_Z z.
Proof. apply Qcanon.Qred_identity. simpl. apply Z.gcd_1_r. Qed.

Lemma signed_inject (negative : bool) (z : Z) :
  Num.signed negative (inject_Z z)
  = inject_Z (if negative then - z else z)%Z.
Proof.
  destruct negative; simpl; [|reflexivity].
  change (- inject_Z z) with (inject_Z (- z)).
  apply Qred_inject_Z.
Qed.

Lemma signed_inject_Z (negative : bool) (n : N) :
  Num.signed negative (inject_Z (Z.of_N n))
  = inject_Z (if negative then - Z.of_N n else Z.of_N n)%Z.
Proof. apply signed_inject. Qed.

Lemma takeSign_digit (c : ascii) (s : string) :
  JS.isDigit c = true -> Num.takeSign (String c s) = (false, String c s).
Proof.
  intros H. destruct (isDigit_not_sign c H) as [Hm Hp].
  unfold Num.takeSign. rewrite Hm, Hp. reflexivity.
Qed.

(** *** The digits of the specification and of the source *)

Lemma every_forallb (p : ascii -> bool) (s : string) :
  Spec.every p s = JS.forallb p s.
Proof. induction s as [|c s IH]; simpl; congruence. Qed.

Lemma allDigits_isDigit (s : string) :
  Spec.allDigits s = JS.forallb JS.isDigit s.
Proof.
  unfold Spec.allDigits.
  induction s as [|c s IH]; simpl; [reflexivity|].
  rewrite isDigitChar_isDigit, IH. reflexivity.
Qed.

Lemma digitAhead_takeWhile (s : string) :
  Spec.digitAhead s = false <-> JS.takeWhile JS.isDigit s = "".
Proof.
  destruct s as [|c s]; simpl; [tauto|].
  rewrite isDigitChar_isDigit. destruct (JS.isDigit c); split;
    (reflexivity || discriminate).
Qed.

Lemma digitsValueFrom_decimal (s : string) :
  JS.forallb JS.isDigit s = true ->
  forall acc,
    Z.of_N (Num.digitsValueFrom acc s)
    = (Z.of_N acc * 10 ^ Z.of_nat (String.length s) + Spec.decimal s)%Z.
Proof.
  induction s as [|c s IH]; intros H acc.
  - simpl. lia.
  - cbn [JS.forallb] in H. apply andb_true_iff in H as [Hc Hs].
    cbn [Num.digitsValueFrom Spec.decimal String.length].
    rewrite (IH Hs), N2Z.inj_add, N2Z.inj_mul, (digitOf_digitValue c Hc).
    rewrite Nat2Z.inj_succ, Z.pow_succ_r by lia.
    change (Z.of_N 10) with 10%Z. ring.
Qed.

Lemma digitsValue_decimal (s : string) :
  Spec.allDigits s = true -> Z.of_N (Num.digitsValue s) = Spec.decimal s.
Proof.
  rewrite allDigits_isDigit. intros H. unfold Num.digitsValue.
  rewrite (digitsValueFrom_decimal s H). simpl. reflexivity.
Qed.

(** *** Rounding to a double *)

Lemma roundHalfEven_one (x : Z) : Num.roundHalfEven x 1 = x.
Proof.
  unfold Num.roundHalfEven. rewrite Z.mod_1_r, Z.div_1_r. reflexivity.
Qed.

Lemma roundHalfEven_nonneg (num den : Z) :
  (0 <= num)%Z -> (0 < den)%Z -> (0 <= Num.roundHalfEven num den)%Z.
Proof.
  intros Hn Hd. unfold Num.roundHalfEven.
  assert (0 <= num / den)%Z by (apply Z.div_pos; assumption).
  destruct (2 * (num mod den) ?= den)%Z; [destruct (Z.even _)| |]; lia.
Qed.

Lemma Qred_scaled (a j : Z) :
  (0 <= j)%Z -> Qred (a * 2 ^ j # Z.to_pos (2 ^ j)) = inject_Z a.
Proof.
  intros Hj. rewrite <- (Qred_inject_Z a). apply Qred_complete.
  unfold Qeq. simpl.
  rewrite Z2Pos.id by (apply Z.pow_pos_nonneg; lia). ring.
Qed.

(** Below the first exponent of a double's last place an integer is not
    rounded at all. *)
Lemma toDouble_fine (z : Z) :
  (Num.floorLog2 (Z.abs z) 1 <= 52)%Z ->
  (Z.abs z < 2 ^ 1024)%Z ->
  Num.toDouble (inject_Z z) = Num.Finite (inject_Z z).
Proof.
  intros Hlog Hbound. unfold Num.toDouble.
  cbn [inject_Z Qnum Qden].
  destruct (z =? 0)%Z eqn:Hz; [apply Z.eqb_eq in Hz as ->; reflexivity|].
  assert (Hsign : (if (z <? 0)%Z then - Z.abs z else Z.abs z)%Z = z).
  { destruct (z <? 0)%Z eqn:E;
      [apply Z.ltb_lt in E | apply Z.ltb_ge in E]; lia. }
  set (k := Z.max (Num.floorLog2 (Z.abs z) 1 - 52) (-1074)).
  assert (Hk : (k <= 0)%Z) by (subst k; lia).
  destruct (0 <=? k)%Z eqn:Hk0.
  - apply Z.leb_le in Hk0. assert (k = 0%Z) as -> by lia.
    change (1 * 2 ^ 0)%Z with 1%Z. rewrite roundHalfEven_one.
    change (2 ^ 0)%Z with 1%Z. rewrite Z.mul_1_r.
    destruct (2 ^ 1024 <=? Z.abs z)%Z eqn:E;
      [apply Z.leb_le in E; lia|].
    rewrite signed_inject, Hsign. reflexivity.
  - apply Z.leb_gt in Hk0. rewrite roundHalfEven_one.
    rewrite Qred_scaled by lia.
    rewrite signed_inject, Hsign. reflexivity.
Qed.

(** An integer of magnitude up to [2 ^ 53] is a double. *)
Lemma toDouble_small (z : Z) :
  (Z.abs z <= 2 ^ 53)%Z ->
  Num.toDouble (inject_Z z) = Num.Finite (inject_Z z).
Proof.
  intros H.
  destruct (Z.eq_dec (Z.abs z) (2 ^ 53)) as [E|E].
  - destruct (Z.abs_eq_or_opp z) as [E'|E']; rewrite E' in E.
    + rewrite E. vm_compute. reflexivity.
    + assert (z = - 2 ^ 53)%Z as -> by lia. vm_compute. reflexivity.
  - destruct (Z.eq_dec z 0) as [->|Hz]; [reflexivity|].
    apply toDouble_fine.
    + unfold Num.floorLog2. change (Z.log2 1) with 0%Z.
      assert (Z.log2 (Z.abs z) < 53)%Z
        by (apply Z.log2_lt_pow2; lia).
      destruct (if (0 <=? _)%Z then _ else _); lia.
    + assert (2 ^ 53 < 2 ^ 1024)%Z by (apply Z.pow_lt_mono_r; lia). lia.
Qed.

(** The double for an integer is an integer or an infinity. *)
Lemma toDouble_integer (z : Z) :
  (exists z', Num.toDouble (inject_Z z) = Num.Finite (inject_Z z')) \/
  (exists negative, Num.toDouble (inject_Z z) = Num.Infinity negative).
Proof.
  unfold Num.toDouble. cbn [inject_Z Qnum Qden].
  destruct (z =? 0)%Z; [left; exists 0%Z; reflexivity|].
  set (k := Z.max (Num.floorLog2 (Z.abs z) 1 - 52) (-1074)).
  destruct (0 <=? k)%Z eqn:Hk0.
  - destruct (2 ^ 1024 <=? _)%Z; [right; eexists; reflexivity|].
    left. rewrite signed_inject. eexists. reflexivity.
  - apply Z.leb_gt in Hk0. left. rewrite roundHalfEven_one.
    rewrite Qred_scaled by lia. rewrite signed_inject.
    eexists. reflexivity.
Qed.

Lemma toDouble_nonNegative (q : Q) :
  0 <= q -> Num.nonNegative (Num.toDouble q).
Proof.
  destruct q as [n d]. unfold Qle. cbn [Qnum Qden]. intros H.
  assert (Hn : (0 <= n)%Z) by lia.
  unfold Num.toDouble. cbn [Qnum Qden].
  destruct (n =? 0)%Z; [simpl; apply Qle_refl|].
  assert ((n <? 0)%Z = false) as -> by (apply Z.ltb_ge; exact Hn).
  set (k := Z.max (Num.floorLog2 (Z.abs n) (Z.pos d) - 52) (-1074)).
  destruct (0 <=? k)%Z eqn:Hk0.
  - apply Z.leb_le in Hk0.
    destruct (2 ^ 1024 <=? _)%Z; [reflexivity|].
    assert (0 < 2 ^ k)%Z by (apply Z.pow_pos_nonneg; lia).
    assert (0 <= Num.roundHalfEven (Z.abs n) (Z.pos d * 2 ^ k) * 2 ^ k)%Z.
    { apply Z.mul_nonneg_nonneg; [|lia].
      apply roundHalfEven_nonneg; [lia|]. apply Z.mul_pos_pos; lia. }
    cbn [Num.nonNegative Num.signed]. unfold Qle.
    cbn [inject_Z Qnum Qden]. lia.
  - cbn [Num.nonNegative Num.signed]. rewrite Qred_correct.
    apply Z.leb_gt in Hk0.
    assert (0 < 2 ^ (- k))%Z by (apply Z.pow_pos_nonneg; lia).
    assert (0 <= Num.roundHalfEven (Z.abs n * 2 ^ (- k)) (Z.pos d))%Z.
    { apply roundHalfEven_nonneg; [|lia]. apply Z.mul_nonneg_nonneg; lia. }
    unfold Qle. cbn [Qnum Qden]. lia.
Qed.

(** *** [parseInt] *)

Lemma parseInt10_integer (text : string) (negative : bool) (ds rest : string) :
  JS.dropWhile JS.isWhiteSpace text = text ->
  Spec.BeginsWithInteger text negative ds rest ->
  Num.parseInt10 text
  = Num.toDouble (inject_Z (Spec.integerValue negative ds)).
Proof.
  intros Hws (Hform & Hds & Hne & Hrest).
  unfold Num.parseInt10, Spec.integerValue. rewrite Hws.
  rewrite <- (digitsValue_decimal ds Hds).
  rewrite allDigits_isDigit in Hds. apply digitAhead_takeWhile in Hrest.
  assert (Htake : JS.takeWhile JS.isDigit (ds ++ rest) = ds)
    by (apply takeWhile_app; assumption).
  apply truthy_nonempty in Hne.
  destruct Hform as [[-> ->]|[[-> ->]|[-> ->]]].
  - destruct ds as [|c ds']; [discriminate|].
    simpl in Hds. apply andb_true_iff in Hds as [Hc _].
    cbn [append]. rewrite (takeSign_digit c _ Hc).
    cbn [append] in Htake. rewrite Htake. cbn [JS.truthy].
    rewrite signed_inject_Z. reflexivity.
  - cbn -[Num.signed Num.toDouble]. rewrite Htake, Hne, signed_inject_Z.
    reflexivity.
  - cbn -[Num.signed Num.toDouble]. rewrite Htake, Hne, signed_inject_Z.
    reflexivity.
Qed.

Lemma parseInt10_NaN (text : string) :
  JS.dropWhile JS.isWhiteSpace text = text ->
  (forall negative ds rest, ~ Spec.BeginsWithInteger text negative ds rest) ->
  Num.parseInt10 text = Num.NaN.
Proof.
  intros Hws Hnone. unfold Num.parseInt10. rewrite Hws.
  destruct (Num.takeSign text) as [negative s2] eqn:Hsign.
  destruct (JS.truthy (JS.takeWhile JS.isDigit s2)) eqn:Hz; [|reflexivity].
  exfalso.
  apply (Hnone negative (JS.takeWhile JS.isDigit s2)
               (JS.dropWhile JS.isDigit s2)).
  split; [|split; [|split]].
  - rewrite takeWhile_dropWhile.
    destruct text as [|c r]; cbn in Hsign.
    + injection Hsign as <- <-. left. split; reflexivity.
    + destruct (JS.code c =? 45)%N eqn:Hm.
      * injection Hsign as <- <-. apply code_minus in Hm as ->.
        right. right. split; reflexivity.
      * destruct (JS.code c =? 43)%N eqn:Hp; injection Hsign as <- <-.
        -- apply code_plus in Hp as ->. right. left. split; reflexivity.
        -- left. split; reflexivity.
  - rewrite allDigits_isDigit. apply forallb_takeWhile.
  - apply truthy_nonempty. exact Hz.
  - apply digitAhead_takeWhile, takeWhile_nil_dropWhile.
Qed.

Lemma orElse_integer (z : Z) :
  Num.orElse (Num.Finite (inject_Z z)) Num.zero = Num.Finite (inject_Z z).
Proof.
  unfold Num.orElse, Num.falsy.
  destruct (Qeq_bool (inject_Z z) 0) eqn:E; [|reflexivity].
  apply Qeq_bool_eq in E. unfold Qeq in E. simpl in E.
  assert (z = 0%Z) as -> by lia. reflexivity.
Qed.

Lemma orElse_toDouble_integer (z : Z) :
  Num.orElse (Num.toDouble (inject_Z z)) Num.zero
  = Num.toDouble (inject_Z z).
Proof.
  destruct (toDouble_integer z) as [[z' ->]|[negative ->]];
    [apply orElse_integer | reflexivity].
Qed.

(** C9, as stated, fails: the count is a double.  A badge text of 16
    digits can come back as another integer than the one it holds, and one
    of 310 digits comes back as an infinity, which is no integer. *)
Lemma badge_count_beyond_doubles :
  Spec.BeginsWithInteger "9007199254740993" false "9007199254740993" "" /\
  Spec.integerValue false "9007199254740993" = 9007199254740993%Z /\
  ProductsPage.getCartBadgeCount (Demo.withBadge "9007199254740993")
  = (inr (Num.Finite (inject_Z 9007199254740992)),
     Demo.withBadge "9007199254740993") /\
  Spec.BeginsWithInteger ("1" ++ Demo.zeros 309) false
    ("1" ++ Demo.zeros 309) "" /\
  CartPage.getCartItemCount (Demo.withBadge ("1" ++ Demo.zeros 309))
  = (inr (Num.Infinity false), Demo.withBadge ("1" ++ Demo.zeros 309)).
Proof.
  split; [|split; [|split; [|split]]].
  - split; [left; split; reflexivity|]. repeat split. discriminate.
  - reflexivity.
  - vm_compute. reflexivity.
  - split; [left; split; [rewrite append_nil_r|]; reflexivity|].
    split; [vm_compute; reflexivity|]. split; [discriminate | reflexivity].
  - vm_compute. reflexivity.
Qed.

(** C9, amended: [getCartBadgeCount] and [getCartItemCount] return 0 when
    the cart badge is not visible (the check says so, or throws) and when
    its text does not begin with a decimal integer; otherwise they return
    the integer at the start of the badge text as a double: that integer
    itself when its magnitude is at most [2 ^ 53], in general the double
    nearest to it, an infinity beyond the range of the doubles. *)
Theorem badge_count
    {W : Type} {P : Page W} (w : W) (method : Async W Num.number) :
  In method [ ProductsPage.getCartBadgeCount; CartPage.getCartItemCount ] ->
  let badge := Loc ".shopping_cart_badge" in
  (forall w', locator_isVisible badge w = (inr false, w') ->
              method w = (inr (Num.Finite 0), w')) /\
  (forall e w', locator_isVisible badge w = (inl e, w') ->
                method w = (inr (Num.Finite 0), w')) /\
  (forall w1 raw w2,
     locator_isVisible badge w = (inr true, w1) ->
     locator_textContent badge w1 = (inr raw, w2) ->
     let text := BasePage.trimOrEmpty raw in
     (forall negative ds rest,
        Spec.BeginsWithInteger text negative ds rest ->
        method w
        = (inr (Num.toDouble (inject_Z (Spec.integerValue negative ds))),
           w2) /\
        ((Z.abs (Spec.integerValue negative ds) <= 2 ^ 53)%Z ->
         method w
         = (inr (Num.Finite (inject_Z (Spec.integerValue negative ds))),
            w2))) /\
     ((forall negative ds rest,
         ~ Spec.BeginsWithInteger text negative ds rest) ->
      method w = (inr (Num.Finite 0), w2))).
Proof.
  intros Hin badge.
  assert (Hm : method
               = (visible <- BasePage.isVisible ".shopping_cart_badge" ;;
                  if negb visible then ret Num.zero
                  else text <- BasePage.getText ".shopping_cart_badge" ;;
                       ret (Num.orElse (Num.parseInt10 text) Num.zero))).
  { destruct Hin as [<-|[<-|[]]]; reflexivity. }
  subst method badge.
  unfold bind, BasePage.isVisible, BasePage.getText, tryCatch, bind, ret.
  split; [|split].
  - intros w' ->. reflexivity.
  - intros e w' ->. reflexivity.
  - intros w1 raw w2 -> Htext. cbn [negb]. rewrite Htext.
    split.
    + intros negative ds rest H.
      rewrite (parseInt10_integer _ negative ds rest
                 (dropWhile_trimOrEmpty raw) H).
      rewrite orElse_toDouble_integer.
      split; [reflexivity|]. intros Hsmall.
      rewrite (toDouble_small _ Hsmall). reflexivity.
    + intros H.
      rewrite (parseInt10_NaN _ (dropWhile_trimOrEmpty raw) H).
      reflexivity.
Qed.

Lemma badge_count_witness :
  ProductsPage.getCartBadgeCount Demo.inventory
  = (inr (Num.Finite (inject_Z 1)), Demo.inventory) /\
  ProductsPage.getCartBadgeCount (Demo.withBadge "-12 items")
  = (inr (Num.Finite (inject_Z (-12))), Demo.withBadge "-12 items") /\
  CartPage.getCartItemCount Demo.emptyCart
  = (inr (Num.Finite 0), Demo.emptyCart) /\
  CartPage.getCartItemCount Demo.ambiguous
  = (inr (Num.Finite 0), Demo.ambiguous) /\
  CartPage.getCartItemCount (Demo.withBadge "new")
  = (inr (Num.Finite 0), Demo.withBadge "new").
Proof.
  split; [|split; [|split; [|split]]].
  - destruct (badge_count Demo.inventory ProductsPage.getCartBadgeCount)
      as (_ & _ & Hvisible); [left; reflexivity|].
    destruct (Hvisible Demo.inventory (Some "1") Demo.inventory
                eq_refl eq_refl) as [Hint _].
    apply (Hint false "1" "").
    + split; [left; split; reflexivity|]. repeat split. discriminate.
    + vm_compute. discriminate.
  - destruct (badge_count (Demo.withBadge "-12 items")
                ProductsPage.getCartBadgeCount)
      as (_ & _ & Hvisible); [left; reflexivity|].
    destruct (Hvisible (Demo.withBadge "-12 items") (Some "-12 items")
                (Demo.withBadge "-12 items") eq_refl eq_refl) as [Hint _].
    apply (Hint true "12" " items").
    + split; [right; right; split; reflexivity|]. repeat split. discriminate.
    + vm_compute. discriminate.
  - destruct (badge_count Demo.emptyCart CartPage.getCartItemCount)
      as (Hhidden & _); [right; left; reflexivity|].
    apply Hhidden. reflexivity.
  - destruct (badge_count Demo.ambiguous CartPage.getCartItemCount)
      as (_ & Hthrows & _); [right; left; reflexivity|].
    apply (Hthrows "strict mode violation"). reflexivity.
  - destruct (badge_count (Demo.withBadge "new") CartPage.getCartItemCount)
      as (_ & _ & Hvisible); [right; left; reflexivity|].
    destruct (Hvisible (Demo.withBadge "new") (Some "new")
                (Demo.withBadge "new") eq_refl eq_refl) as [_ Hnone].
    apply Hnone. intros negative ds rest (Hform & Hds & Hne & _).
    cbn in Hform.
    destruct Hform as [[E _]|[[E _]|[E _]]];
      try discriminate E.
    destruct ds as [|c ds]; [congruence|].
    cbn in E. injection E as <- _. discriminate Hds.
Defined.

(** ** Dollar amounts *)

Lemma takeWhile_all (p : ascii -> bool) (s : string) :
  JS.forallb p s = true -> JS.takeWhile p s = s.
Proof.
  intros H. rewrite <- (append_nil_r s) at 1.
  rewrite takeWhile_app; auto.
Qed.

Lemma dropWhile_all (p : ascii -> bool) (s : string) :
  JS.forallb p s = true -> JS.dropWhile p s = "".
Proof.
  intros H. rewrite <- (append_nil_r s) at 1.
  rewrite dropWhile_app; auto.
Qed.

Lemma forallb_app (p : ascii -> bool) (a b : string) :
  JS.forallb p a = true -> JS.forallb p b = true ->
  JS.forallb p (a ++ b) = true.
Proof.
  induction a as [|c a IH]; simpl; intros Ha Hb; [exact Hb|].
  apply andb_true_iff in Ha as [Hc Ha]. rewrite Hc. auto.
Qed.

Lemma matchAmount_unfold (text : string) :
  CheckoutOverviewPage.matchAmount text
  = match CheckoutOverviewPage.matchAmountHere text with
    | Some m => Some m
    | None =>
        match text with
        | String _ text' => CheckoutOverviewPage.matchAmount text'
        | EmptyString => None
        end
    end.
Proof. destruct text; reflexivity. Qed.

(** Where the pattern matches at the start of a text, an amount stands
    there, and the match takes all its digits. *)
Lemma matchAmountHere_sound (s m : string) :
  CheckoutOverviewPage.matchAmountHere s = Some m ->
  exists ip fp post,
    Spec.AmountAt s "" ip fp post /\ m = ip ++ "." ++ fp /\
    Spec.digitAhead post = false.
Proof.
  destruct s as [|c r]; [discriminate|].
  unfold CheckoutOverviewPage.matchAmountHere.
  destruct (JS.isDollar c) eqn:Hc; [|discriminate].
  destruct (JS.dropWhile JS.isDigit r) as [|d r'] eqn:Hdrop; [discriminate|].
  destruct (JS.isDot d) eqn:Hd; [|discriminate].
  destruct (JS.truthy (JS.takeWhile JS.isDigit r)) eqn:Hip; [|discriminate].
  destruct (JS.truthy (JS.takeWhile JS.isDigit r')) eqn:Hfp; [|discriminate].
  cbn [andb]. intros H. injection H as <-.
  apply isDollar_eq in Hc as ->. apply isDot_eq in Hd as ->.
  exists (JS.takeWhile JS.isDigit r), (JS.takeWhile JS.isDigit r'),
    (JS.dropWhile JS.isDigit r').
  split; [|split; [reflexivity
                  | apply digitAhead_takeWhile, takeWhile_nil_dropWhile]].
  split; [|repeat split;
           try (rewrite allDigits_isDigit; apply forallb_takeWhile);
           apply truthy_nonempty; assumption].
  cbn [append]. f_equal.
  rewrite (takeWhile_dropWhile JS.isDigit r'), <- Hdrop.
  symmetry. apply takeWhile_dropWhile.
Qed.

Lemma matchAmountHere_complete (s ip fp post : string) :
  Spec.AmountAt s "" ip fp post ->
  Spec.digitAhead post = false ->
  CheckoutOverviewPage.matchAmountHere s = Some (ip ++ "." ++ fp).
Proof.
  intros (-> & Hip & Hipne & Hfp & Hfpne) Hpost.
  rewrite allDigits_isDigit in Hip, Hfp.
  apply digitAhead_takeWhile in Hpost.
  cbn [append]. unfold CheckoutOverviewPage.matchAmountHere.
  change (JS.isDollar "$") with true. cbv iota.
  rewrite (takeWhile_app JS.isDigit ip) by (auto; reflexivity).
  rewrite (dropWhile_app JS.isDigit ip) by (auto; reflexivity).
  rewrite (takeWhile_app JS.isDigit fp) by auto.
  change (JS.isDot ".") with true.
  apply truthy_nonempty in Hipne, Hfpne. rewrite Hipne, Hfpne.
  reflexivity.
Qed.

(** An amount may always be extended to all the digits that follow. *)
Lemma AmountAt_extend (s pre ip fp post : string) :
  Spec.AmountAt s pre ip fp post ->
  Spec.AmountAt s pre ip (fp ++ JS.takeWhile JS.isDigit post)
    (JS.dropWhile JS.isDigit post).
Proof.
  intros (-> & Hip & Hipne & Hfp & Hfpne).
  split; [|repeat split; auto].
  - rewrite append_assoc, takeWhile_dropWhile. reflexivity.
  - rewrite allDigits_isDigit in *.
    apply forallb_app; [exact Hfp | apply forallb_takeWhile].
  - destruct fp; [congruence | discriminate].
Qed.

Lemma matchAmountHere_None (s ip fp post : string) :
  CheckoutOverviewPage.matchAmountHere s = None ->
  ~ Spec.AmountAt s "" ip fp post.
Proof.
  intros Hnone H. apply AmountAt_extend in H.
  apply matchAmountHere_complete in H; [congruence|].
  apply digitAhead_takeWhile, takeWhile_nil_dropWhile.
Qed.

Lemma AmountAt_cons (c : ascii) (s pre ip fp post : string) :
  Spec.AmountAt s pre ip fp post <->
  Spec.AmountAt (String c s) (String c pre) ip fp post.
Proof.
  unfold Spec.AmountAt. cbn [append]. split.
  - intros (-> & H). split; [reflexivity | exact H].
  - intros (E & H). injection E as E. split; assumption.
Qed.

Lemma matchAmount_first (pre : string) :
  forall text ip fp post,
    Spec.FirstAmount text pre ip fp post ->
    CheckoutOverviewPage.matchAmount text = Some (ip ++ "." ++ fp).
Proof.
  induction pre as [|c pre IH]; intros text ip fp post (Hat & Hmax & Hmin);
    rewrite matchAmount_unfold.
  - rewrite (matchAmountHere_complete text ip fp post Hat Hmax). reflexivity.
  - destruct (CheckoutOverviewPage.matchAmountHere text) as [m|] eqn:Hhere.
    + apply matchAmountHere_sound in Hhere as (ip' & fp' & post' & H' & _).
      apply Hmin in H'. simpl in H'. lia.
    + destruct text as [|c' text'];
        [destruct Hat as [E _]; discriminate E|].
      assert (c' = c) as ->
        by (destruct Hat as [E _]; cbn [append] in E; congruence).
      apply IH with (post := post). split; [|split].
      * apply (AmountAt_cons c). exact Hat.
      * exact Hmax.
      * intros pre' ip' fp' post' H'.
        apply (AmountAt_cons c) in H'. apply Hmin in H'. simpl in H'. lia.
Qed.

Lemma matchAmount_none (text : string) :
  Spec.NoAmount text -> CheckoutOverviewPage.matchAmount text = None.
Proof.
  induction text as [|c text IH]; intros Hno; rewrite matchAmount_unfold.
  - reflexivity.
  - destruct (CheckoutOverviewPage.matchAmountHere (String c text))
      as [m|] eqn:Hhere.
    + apply matchAmountHere_sound in Hhere as (ip & fp & post & H & _).
      destruct (Hno _ _ _ _ H).
    + apply IH. intros pre ip fp post H.
      apply (AmountAt_cons c) in H. exact (Hno _ _ _ _ H).
Qed.

Section DecimalText.
Variables (ip rest : string).
Hypothesis Hip : JS.forallb JS.isDigit ip = true.
Hypothesis Hne : ip <> "".

Lemma digits_no_white_space :
  JS.dropWhile JS.isWhiteSpace (ip ++ rest) = ip ++ rest.
Proof.
  destruct ip as [|c ip']; [congruence|]. simpl in *.
  apply andb_true_iff in Hip as [Hc _].
  rewrite (isDigit_not_isWhiteSpace c Hc). reflexivity.
Qed.

Lemma digits_no_sign : Num.takeSign (ip ++ rest) = (false, ip ++ rest).
Proof.
  destruct ip as [|c ip']; [congruence|]. simpl in Hip.
  apply andb_true_iff in Hip as [Hc _].
  apply takeSign_digit. exact Hc.
Qed.

Lemma digits_not_Infinity : String.prefix "Infinity" (ip ++ rest) = false.
Proof.
  destruct ip as [|c ip']; [congruence|]. simpl in Hip.
  apply andb_true_iff in Hip as [Hc _].
  cbn [append String.prefix].
  destruct (ascii_dec "I" c) as [<-|]; [discriminate Hc | reflexivity].
Qed.

End DecimalText.

Lemma decimalMV_decimalValue (ip fp : string) :
  Spec.allDigits ip = true -> Spec.allDigits fp = true -> fp <> "" ->
  Num.decimalMV ip fp 0 = Spec.decimalValue ip fp.
Proof.
  intros Hip Hfp Hne. unfold Num.decimalMV, Spec.decimalValue.
  assert (Hm : Z.of_N (Num.digitsValue (ip ++ fp)) = Spec.decimal (ip ++ fp)).
  { apply digitsValue_decimal. rewrite allDigits_isDigit in *.
    apply forallb_app; assumption. }
  rewrite Hm. apply Qred_complete.
  set (m := Spec.decimal (ip ++ fp)).
  assert (Hlen : (0 < Z.of_nat (String.length fp))%Z)
    by (destruct fp; [congruence | simpl; lia]).
  unfold Num.pow10.
  destruct (0 <=? 0 - Z.of_nat (String.length fp))%Z eqn:E;
    [apply Z.leb_le in E; lia|].
  replace (- (0 - Z.of_nat (String.length fp)))%Z
    with (Z.of_nat (String.length fp)) by lia.
  assert (Hpow : (0 < 10 ^ Z.of_nat (String.length fp))%Z)
    by (apply Z.pow_pos_nonneg; lia).
  destruct (10 ^ Z.of_nat (String.length fp))%Z as [|p|p] eqn:Ep; try lia.
  unfold Qeq. simpl. lia.
Qed.

(** [parseFloat] of digits, a period and digits is the double for their
    numeric value. *)
Lemma parseFloat_decimal (ip fp : string) :
  Spec.allDigits ip = true -> ip <> "" ->
  Spec.allDigits fp = true -> fp <> "" ->
  Num.parseFloat (ip ++ "." ++ fp) = Num.toDouble (Spec.decimalValue ip fp).
Proof.
  intros Hip Hipne Hfp Hfpne.
  rewrite <- (decimalMV_decimalValue ip fp Hip Hfp Hfpne).
  rewrite allDigits_isDigit in Hip, Hfp.
  unfold Num.parseFloat.
  rewrite digits_no_white_space, digits_no_sign, digits_not_Infinity
    by assumption.
  rewrite (takeWhile_app JS.isDigit ip) by (auto; reflexivity).
  rewrite (dropWhile_app JS.isDigit ip) by (auto; reflexivity).
  cbn [append]. change (JS.isDot ".") with true. cbv iota.
  rewrite (takeWhile_all JS.isDigit fp), (dropWhile_all JS.isDigit fp)
    by assumption.
  apply truthy_nonempty in Hipne. rewrite Hipne.
  cbn [orb Num.exponentPart Num.signed]. reflexivity.
Qed.

Lemma amountOf_first (text pre ip fp post : string) :
  Spec.FirstAmount text pre ip fp post ->
  CheckoutOverviewPage.amountOf text
  = Num.toDouble (Spec.decimalValue ip fp).
Proof.
  intros H. unfold CheckoutOverviewPage.amountOf.
  rewrite (matchAmount_first pre text ip fp post H).
  destruct H as ((_ & Hip & Hipne & Hfp & Hfpne) & _).
  apply parseFloat_decimal; assumption.
Qed.

Lemma amountOf_none (text : string) :
  Spec.NoAmount text -> CheckoutOverviewPage.amountOf text = Num.Finite 0.
Proof.
  intros H. unfold CheckoutOverviewPage.amountOf.
  rewrite (matchAmount_none text H). reflexivity.
Qed.

(** *** Trimming does not move an amount *)

Lemma isWhiteSpace_not_isDollar (c : ascii) :
  JS.isWhiteSpace c = true -> JS.isDollar c = false.
Proof. each_char c. Qed.

Lemma isWhiteSpace_not_isDigit (c : ascii) :
  JS.isWhiteSpace c = true -> JS.isDigit c = false.
Proof. each_char c. Qed.

Lemma isDot_not_isWhiteSpace (c : ascii) :
  JS.isDot c = true -> JS.isWhiteSpace c = false.
Proof. each_char c. Qed.

(** What is left of a string after its trailing white space is removed
    is empty or keeps the first character. *)
Lemma dropWhileEnd_cons (p : ascii -> bool) (c : ascii) (s : string) :
  JS.dropWhileEnd p (String c s) = String c (JS.dropWhileEnd p s) \/
  JS.dropWhileEnd p (String c s) = "" /\ p c = true
  /\ JS.dropWhileEnd p s = "".
Proof.
  simpl. destruct (JS.dropWhileEnd p s) as [|d t]; [|left; reflexivity].
  destruct (p c); [right; repeat split | left; reflexivity].
Qed.

Lemma takeWhile_isDigit_dropWhileEnd (s : string) :
  JS.takeWhile JS.isDigit (JS.dropWhileEnd JS.isWhiteSpace s)
  = JS.takeWhile JS.isDigit s.
Proof.
  induction s as [|c s IH]; [reflexivity|].
  destruct (dropWhileEnd_cons JS.isWhiteSpace c s) as [->|(-> & Hc & Hs)].
  - simpl. rewrite IH. reflexivity.
  - simpl. rewrite (isWhiteSpace_not_isDigit c Hc). reflexivity.
Qed.

Lemma dropWhile_isDigit_dropWhileEnd (s : string) :
  JS.dropWhile JS.isDigit (JS.dropWhileEnd JS.isWhiteSpace s)
  = JS.dropWhileEnd JS.isWhiteSpace (JS.dropWhile JS.isDigit s).
Proof.
  induction s as [|c s IH]; [reflexivity|].
  cbn [JS.dropWhile].
  destruct (JS.isDigit c) eqn:Hd.
  - destruct (dropWhileEnd_cons JS.isWhiteSpace c s) as [->|(_ & Hc & _)].
    + cbn [JS.dropWhile]. rewrite Hd. exact IH.
    + rewrite (isDigit_not_isWhiteSpace c Hd) in Hc. discriminate Hc.
  - destruct (dropWhileEnd_cons JS.isWhiteSpace c s) as [E|(E & _)];
      rewrite E; [|reflexivity].
    cbn [JS.dropWhile]. rewrite Hd. reflexivity.
Qed.

Lemma matchAmountHere_dropWhileEnd (c : ascii) (s : string) :
  CheckoutOverviewPage.matchAmountHere
    (String c (JS.dropWhileEnd JS.isWhiteSpace s))
  = CheckoutOverviewPage.matchAmountHere (String c s).
Proof.
  unfold CheckoutOverviewPage.matchAmountHere.
  destruct (JS.isDollar c); [|reflexivity].
  rewrite takeWhile_isDigit_dropWhileEnd, dropWhile_isDigit_dropWhileEnd.
  destruct (JS.dropWhile JS.isDigit s) as [|d r]; [reflexivity|].
  destruct (dropWhileEnd_cons JS.isWhiteSpace d r) as [->|(-> & Hd & _)].
  - rewrite takeWhile_isDigit_dropWhileEnd. reflexivity.
  - destruct (JS.isDot d) eqn:Hdot; [|reflexivity].
    rewrite (isDot_not_isWhiteSpace d Hdot) in Hd. discriminate Hd.
Qed.

Lemma matchAmount_dropWhileEnd (s : string) :
  CheckoutOverviewPage.matchAmount (JS.dropWhileEnd JS.isWhiteSpace s)
  = CheckoutOverviewPage.matchAmount s.
Proof.
  induction s as [|c s IH]; [reflexivity|].
  rewrite (matchAmount_unfold (String c s)).
  destruct (dropWhileEnd_cons JS.isWhiteSpace c s) as [->|(-> & Hc & Hs)].
  - rewrite matchAmount_unfold, matchAmountHere_dropWhileEnd, IH.
    reflexivity.
  - rewrite <- IH, Hs.
    unfold CheckoutOverviewPage.matchAmountHere.
    rewrite (isWhiteSpace_not_isDollar c Hc). reflexivity.
Qed.

Lemma matchAmount_dropWhile (s : string) :
  CheckoutOverviewPage.matchAmount (JS.dropWhile JS.isWhiteSpace s)
  = CheckoutOverviewPage.matchAmount s.
Proof.
  induction s as [|c s IH]; [reflexivity|].
  cbn [JS.dropWhile]. destruct (JS.isWhiteSpace c) eqn:Hc; [|reflexivity].
  rewrite IH, (matchAmount_unfold (String c s)).
  unfold CheckoutOverviewPage.matchAmountHere.
  rewrite (isWhiteSpace_not_isDollar c Hc). reflexivity.
Qed.

Lemma amountOf_trimOrEmpty (raw : option string) :
  CheckoutOverviewPage.amountOf (BasePage.trimOrEmpty raw)
  = CheckoutOverviewPage.amountOf
      (match raw with Some t => t | None => "" end).
Proof.
  rewrite trimOrEmpty_trim. destruct raw as [t|]; [|reflexivity].
  unfold CheckoutOverviewPage.amountOf, JS.trim.
  rewrite matchAmount_dropWhileEnd, matchAmount_dropWhile. reflexivity.
Qed.

(** Reads a concrete text off an equation [text = pre ++ ...], one
    character of [pre] at a time. *)
Ltac peel E pre :=
  repeat first
    [ solve [simpl; lia]
    | destruct pre as [|? pre];
      [ cbn in E; discriminate E
      | cbn in E; first [ discriminate E | injection E as _ E ] ] ].

(** C10, as stated, fails: what comes back is a double.  For the amount
    39.98 it is the double next to it, not 39.98; and an amount beyond the
    range of the doubles comes back as an infinity. *)
Lemma summary_amount_beyond_doubles :
  Spec.decimalValue "39" "98" = 1999 # 50 /\
  CheckoutOverviewPage.getSubtotal Demo.inventory
  = (inr (Num.Finite (5626684784446013 # 140737488355328)),
     Demo.inventory) /\
  Spec.FirstAmount Demo.hugeTax "Tax: " ("1" ++ Demo.zeros 309) "0" "" /\
  CheckoutOverviewPage.getTax (Demo.withTax Demo.hugeTax)
  = (inr (Num.Infinity false), Demo.withTax Demo.hugeTax).
Proof.
  split; [vm_compute; reflexivity|].
  split; [vm_compute; reflexivity|].
  split; [|vm_compute; reflexivity].
  split; [|split; [reflexivity|]].
  - split; [vm_compute; reflexivity|].
    split; [vm_compute; reflexivity|].
    repeat split; discriminate.
  - intros pre' ip' fp' post' (E & _).
    change (String.length "Tax: ") with 5%nat.
    unfold Demo.hugeTax in E. peel E pre'.
Qed.

(** C10, amended: for every summary-label text, [getSubtotal], [getTax]
    and [getTotal] return, as a double, the numeric value of the first
    substring of the form dollar sign, digits, period, digits in that text
    (the double nearest to that value, an infinity beyond the range of the
    doubles), and 0 when the text has no such substring (a missing text
    content counts as empty). *)
Theorem summary_amounts
    {W : Type} {P : Page W} (w : W)
    (method : Async W Num.number) (label : string) :
  In (method, label)
     [ (CheckoutOverviewPage.getSubtotal, ".summary_subtotal_label");
       (CheckoutOverviewPage.getTax, ".summary_tax_label");
       (CheckoutOverviewPage.getTotal, ".summary_total_label") ] ->
  forall raw w',
    locator_textContent (Loc label) w = (inr raw, w') ->
    let text := match raw with Some t => t | None => "" end in
    (forall pre ip fp post,
       Spec.FirstAmount text pre ip fp post ->
       method w = (inr (Num.toDouble (Spec.decimalValue ip fp)), w')) /\
    (Spec.NoAmount text -> method w = (inr (Num.Finite 0), w')).
Proof.
  intros Hin raw w' Htext.
  assert (Hm : method
               = (text <- BasePage.getText label ;;
                  ret (CheckoutOverviewPage.amountOf text))).
  { destruct Hin as [E|[E|[E|[]]]]; injection E as <- <-; reflexivity. }
  subst method. unfold bind, BasePage.getText, bind, ret. rewrite Htext.
  rewrite amountOf_trimOrEmpty.
  split.
  - intros pre ip fp post H. rewrite (amountOf_first _ pre ip fp post H).
    reflexivity.
  - intros H. rewrite (amountOf_none _ H). reflexivity.
Qed.

Lemma summary_amounts_witness :
  CheckoutOverviewPage.getTax Demo.inventory
  = (inr (Num.Finite (3602879701896397 # 1125899906842624)), Demo.inventory) /\
  CheckoutOverviewPage.getTotal (Demo.withTax "")
  = (inl "Timeout exceeded", Demo.withTax "") /\
  CheckoutOverviewPage.getTax (Demo.withTax "Now $12.50 (was $20.00)")
  = (inr (Num.Finite (25 # 2)), Demo.withTax "Now $12.50 (was $20.00)") /\
  CheckoutOverviewPage.getTotal Demo.blankSummary
  = (inr (Num.Finite 0), Demo.blankSummary).
Proof.
  split; [|split; [reflexivity|split]].
  - etransitivity; [|vm_compute; reflexivity].
    destruct (summary_amounts (P := Demo.page) Demo.inventory
                CheckoutOverviewPage.getTax ".summary_tax_label"
                (or_intror (or_introl eq_refl))
                (Some "Tax: $3.20") Demo.inventory eq_refl)
      as [Hfirst _].
    apply (Hfirst "Tax: " "3" "20" "").
    split; [|split; [reflexivity|]].
    + split; [reflexivity|]. repeat split; discriminate.
    + intros pre' ip' fp' post' (E & _). cbn in E.
      change (String.length "Tax: ") with 5%nat.
      peel E pre'.
  - etransitivity; [|vm_compute; reflexivity].
    destruct (summary_amounts (P := Demo.page)
                (Demo.withTax "Now $12.50 (was $20.00)")
                CheckoutOverviewPage.getTax ".summary_tax_label"
                (or_intror (or_introl eq_refl))
                (Some "Now $12.50 (was $20.00)")
                (Demo.withTax "Now $12.50 (was $20.00)") eq_refl)
      as [Hfirst _].
    apply (Hfirst "Now " "12" "50" " (was $20.00)").
    split; [|split; [reflexivity|]].
    + split; [reflexivity|]. repeat split; discriminate.
    + intros pre' ip' fp' post' (E & _). cbn in E.
      change (String.length "Now ") with 4%nat.
      peel E pre'.
  - destruct (summary_amounts (P := Demo.page) Demo.blankSummary
                CheckoutOverviewPage.getTotal ".summary_total_label"
                (or_intror (or_intror (or_introl eq_refl)))
                (Some "Total: ") Demo.blankSummary eq_refl)
      as [_ Hnone].
    apply Hnone.
    intros pre ip fp post (E & _). cbn in E.
    assert (H : (8 <= String.length pre)%nat -> False).
    { intros Hlen. apply (f_equal String.length) in E.
      rewrite length_append in E. simpl in E. lia. }
    apply H. peel E pre.
Defined.

(** * Further properties of the page objects *)

(** ** [getText] *)

Lemma dropWhileEnd_idempotent (p : ascii -> bool) (s : string) :
  JS.dropWhileEnd p (JS.dropWhileEnd p s) = JS.dropWhileEnd p s.
Proof.
  induction s as [|c s IH]; [reflexivity|].
  destruct (dropWhileEnd_cons p c s) as [E|(E & _)]; rewrite E;
    [|reflexivity].
  cbn [JS.dropWhileEnd]. rewrite IH. cbn [JS.dropWhileEnd] in E. exact E.
Qed.

Lemma trim_idempotent (s : string) : JS.trim (JS.trim s) = JS.trim s.
Proof.
  unfold JS.trim at 1. rewrite dropWhile_trim. unfold JS.trim.
  apply dropWhileEnd_idempotent.
Qed.

Lemma dropWhile_nil_iff (p : ascii -> bool) (s : string) :
  JS.dropWhile p s = "" <-> JS.forallb p s = true.
Proof.
  induction s as [|c s IH]; simpl; [tauto|].
  destruct (p c); simpl; [exact IH|]. split; discriminate.
Qed.

(** A string trims to nothing exactly when it is white space throughout. *)
Lemma trim_nil_iff (s : string) :
  JS.trim s = "" <-> JS.forallb JS.isWhiteSpace s = true.
Proof.
  rewrite <- dropWhile_nil_iff. unfold JS.trim.
  destruct (dropWhile_head JS.isWhiteSpace s) as [->|(c & t & -> & E)].
  - simpl. tauto.
  - destruct (dropWhileEnd_head JS.isWhiteSpace c t E) as [u ->].
    split; discriminate.
Qed.

(** X1: [getText] throws exactly what reading the text content throws;
    otherwise its result is trimmed already (no white space at either
    end), and it is the empty string exactly when the text content is
    [null] or white space throughout. *)
Theorem getText_trimmed {W : Type} {P : Page W} (selector : string) (w : W) :
  (forall e w',
     locator_textContent (Loc selector) w = (inl e, w') ->
     BasePage.getText selector w = (inl e, w')) /\
  (forall raw w',
     locator_textContent (Loc selector) w = (inr raw, w') ->
     exists t,
       BasePage.getText selector w = (inr t, w') /\
       JS.trim t = t /\
       (t = "" <->
        match raw with
        | Some r => JS.forallb JS.isWhiteSpace r = true
        | None => True
        end)).
Proof.
  unfold BasePage.getText, bind, ret. split.
  - intros e w' ->. reflexivity.
  - intros raw w' ->. exists (BasePage.trimOrEmpty raw).
    split; [reflexivity|]. rewrite trimOrEmpty_trim.
    destruct raw as [r|].
    + split; [apply trim_idempotent | apply trim_nil_iff].
    + split; [reflexivity | tauto].
Qed.

Lemma getText_trimmed_witness :
  (exists t,
     BasePage.getText ".summary_total_label" Demo.blankSummary
     = (inr t, Demo.blankSummary) /\ JS.trim t = t /\
     (t = "" <-> JS.forallb JS.isWhiteSpace "Total: " = true)) /\
  BasePage.getText ".summary_total_label" Demo.emptyCart
  = (inl "Timeout exceeded", Demo.emptyCart).
Proof.
  split.
  - apply (proj2 (getText_trimmed ".summary_total_label" Demo.blankSummary)
             (Some "Total: ")).
    reflexivity.
  - apply (proj1 (getText_trimmed ".summary_total_label" Demo.emptyCart)).
    reflexivity.
Defined.

(** ** More on product identifiers *)

Lemma lowerChar_idempotent (c : ascii) :
  JS.lowerChar (JS.lowerChar c) = JS.lowerChar c.
Proof. each_char c. Qed.

Lemma isWhiteSpace_plain (c : ascii) :
  JS.isWhiteSpace c = true -> JS.isParen c || JS.isDot c = false.
Proof. each_char c. Qed.

Lemma normalizeFrom_toLowerCase (b : bool) (s : string) :
  Spec.normalizeFrom b (JS.toLowerCase s) = Spec.normalizeFrom b s.
Proof.
  revert b. induction s as [|c s IH]; intros b; [reflexivity|].
  cbn [JS.toLowerCase Spec.normalizeFrom].
  rewrite isWhiteSpace_lowerChar, isParen_lowerChar, isDot_lowerChar,
    lowerChar_idempotent, !IH.
  reflexivity.
Qed.

Lemma length_normalizeFrom (b : bool) (s : string) :
  (String.length (Spec.normalizeFrom b s) <= String.length s)%nat.
Proof.
  revert b. induction s as [|c s IH]; intros b; [simpl; lia|].
  cbn [Spec.normalizeFrom].
  destruct (JS.isWhiteSpace c); [destruct b|];
    [| |destruct (JS.isParen c || JS.isDot c)]; simpl;
    try (specialize (IH true); lia); specialize (IH false); lia.
Qed.

(** X2: [getProductId] does not tell letter case apart: names that agree
    once lower-cased get the same identifier, hence the same locators; and
    the identifier is never longer than the lower-cased name. *)
Theorem getProductId_ignores_case (a b : string) :
  JS.toLowerCase a = JS.toLowerCase b ->
  ProductsPage.getProductId a = ProductsPage.getProductId b /\
  ProductsPage.getAddToCartButtonSelector a
  = ProductsPage.getAddToCartButtonSelector b /\
  ProductsPage.getRemoveButtonSelector a
  = ProductsPage.getRemoveButtonSelector b /\
  (String.length (ProductsPage.getProductId a)
   <= String.length (JS.toLowerCase a))%nat.
Proof.
  intros H.
  assert (E : ProductsPage.getProductId a = ProductsPage.getProductId b).
  { rewrite !getProductId_normalize. unfold Spec.normalize.
    rewrite <- (normalizeFrom_toLowerCase false a), H.
    apply normalizeFrom_toLowerCase. }
  unfold ProductsPage.getAddToCartButtonSelector,
    ProductsPage.getRemoveButtonSelector.
  rewrite E. repeat split.
  rewrite <- E, getProductId_normalize. unfold Spec.normalize.
  rewrite <- (normalizeFrom_toLowerCase false a).
  apply length_normalizeFrom.
Qed.

Lemma getProductId_ignores_case_witness :
  ProductsPage.getProductId "Sauce Labs Backpack"
  = ProductsPage.getProductId "SAUCE LABS backpack" /\
  ProductsPage.getAddToCartButtonSelector "Sauce Labs Backpack"
  = ProductsPage.getAddToCartButtonSelector "SAUCE LABS backpack" /\
  ProductsPage.getRemoveButtonSelector "Sauce Labs Backpack"
  = ProductsPage.getRemoveButtonSelector "SAUCE LABS backpack" /\
  (String.length (ProductsPage.getProductId "Sauce Labs Backpack")
   <= String.length (JS.toLowerCase "Sauce Labs Backpack"))%nat.
Proof.
  apply (getProductId_ignores_case
           "Sauce Labs Backpack" "SAUCE LABS backpack").
  reflexivity.
Defined.

Lemma normalizeFrom_nil_iff (s : string) :
  Spec.normalizeFrom false s = "" <->
  JS.forallb (fun c => JS.isParen c || JS.isDot c) s = true.
Proof.
  induction s as [|c s IH]; [simpl; tauto|].
  cbn [Spec.normalizeFrom JS.forallb].
  destruct (JS.isWhiteSpace c) eqn:Ews.
  - rewrite (isWhiteSpace_plain c Ews). simpl. split; discriminate.
  - destruct (JS.isParen c || JS.isDot c); simpl; [exact IH|].
    split; discriminate.
Qed.

(** X3: the identifier is empty exactly when the name is made of
    parentheses and periods only (the empty name included); the locators
    then carry no product at all. *)
Theorem getProductId_empty (name : string) :
  (ProductsPage.getProductId name = "" <->
   JS.forallb (fun c => JS.isParen c || JS.isDot c) name = true) /\
  (ProductsPage.getProductId name = "" ->
   ProductsPage.getAddToCartButtonSelector name = dataTest "add-to-cart-" /\
   ProductsPage.getRemoveButtonSelector name = dataTest "remove-").
Proof.
  split.
  - rewrite getProductId_normalize. apply normalizeFrom_nil_iff.
  - unfold ProductsPage.getAddToCartButtonSelector,
      ProductsPage.getRemoveButtonSelector.
    intros ->. split; reflexivity.
Qed.

Lemma getProductId_empty_witness :
  ProductsPage.getProductId "(.)" = "" /\
  ProductsPage.getAddToCartButtonSelector "(.)" = dataTest "add-to-cart-" /\
  ProductsPage.getRemoveButtonSelector "" = dataTest "remove-".
Proof.
  split; [|split].
  - apply (proj1 (getProductId_empty "(.)")). reflexivity.
  - apply (proj2 (getProductId_empty "(.)")). reflexivity.
  - apply (proj2 (getProductId_empty "")). reflexivity.
Defined.

(** X4: the add-to-cart locator of one product is never the remove
    locator of any product, and two names share a locator exactly when
    they share the identifier. *)
Theorem product_locators_distinct (a b : string) :
  ProductsPage.getAddToCartButtonSelector a
  <> ProductsPage.getRemoveButtonSelector b /\
  (ProductsPage.getAddToCartButtonSelector a
   = ProductsPage.getAddToCartButtonSelector b <->
   ProductsPage.getProductId a = ProductsPage.getProductId b) /\
  (ProductsPage.getRemoveButtonSelector a
   = ProductsPage.getRemoveButtonSelector b <->
   ProductsPage.getProductId a = ProductsPage.getProductId b).
Proof.
  unfold ProductsPage.getAddToCartButtonSelector,
    ProductsPage.getRemoveButtonSelector.
  split; [|split].
  - intros H. cbn in H. discriminate H.
  - split; [|intros ->; reflexivity].
    intros H. do 3 apply append_cancel_l in H.
    apply append_cancel_r in H. exact H.
  - split; [|intros ->; reflexivity].
    intros H. do 3 apply append_cancel_l in H.
    apply append_cancel_r in H. exact H.
Qed.

Lemma product_locators_distinct_witness :
  ProductsPage.getProductId "Sauce Labs Backpack"
  = ProductsPage.getProductId "sauce labs (backpack)." /\
  ProductsPage.getAddToCartButtonSelector "Sauce Labs Backpack"
  = ProductsPage.getAddToCartButtonSelector "sauce labs (backpack).".
Proof.
  split.
  - apply (proj1 (proj2 (product_locators_distinct
                           "Sauce Labs Backpack" "sauce labs (backpack).")));
      reflexivity.
  - apply (proj1 (proj2 (product_locators_distinct
                           "Sauce Labs Backpack" "sauce labs (backpack).")));
      reflexivity.
Defined.

(** ** [clickProductTitle] *)

Lemma firstTitle_None (name : string) (texts : list (option string)) :
  (forall o, In o texts -> ProductsPage.titleIs name o = false) ->
  Titles.firstTitle name texts = None.
Proof.
  induction texts as [|t texts IH]; intros H; [reflexivity|].
  cbn [Titles.firstTitle]. rewrite (H t (or_introl eq_refl)).
  rewrite IH; [reflexivity|]. intros o Ho. apply H. right. exact Ho.
Qed.

Lemma firstTitle_Some (name : string) (texts : list (option string)) :
  forall k o,
    nth_error texts k = Some o -> ProductsPage.titleIs name o = true ->
    (forall j o', (j < k)%nat -> nth_error texts j = Some o' ->
                  ProductsPage.titleIs name o' = false) ->
    Titles.firstTitle name texts = Some k.
Proof.
  induction texts as [|t texts IH]; intros [|k] o Hk Ho Hbefore;
    try discriminate Hk; cbn [Titles.firstTitle].
  - injection Hk as ->. rewrite Ho. reflexivity.
  - rewrite (Hbefore 0%nat t) by (simpl; (lia || reflexivity)).
    rewrite (IH k o Hk Ho); [reflexivity|].
    intros j o' Hj Hnth. apply (Hbefore (S j) o'); [lia | exact Hnth].
Qed.

Lemma firstTitle_found (name : string) (texts : list (option string)) :
  forall k, Titles.firstTitle name texts = Some k ->
            exists o, nth_error texts k = Some o /\
                      ProductsPage.titleIs name o = true.
Proof.
  induction texts as [|t texts IH]; intros k H; [discriminate H|].
  cbn [Titles.firstTitle] in H.
  destruct (ProductsPage.titleIs name t) eqn:Ht.
  - injection H as <-. exists t. split; [reflexivity | exact Ht].
  - destruct (Titles.firstTitle name texts) as [k'|]; [|discriminate H].
    injection H as <-. apply (IH k' eq_refl).
Qed.

Section ClickTitle.
Context {W : Type} {P : Page W}.

Lemma clickProductTitle_loop_first (l : Locator) (name : string) (w : W)
    (texts : list (option string)) :
  forall i,
    (forall j t, nth_error texts j = Some t ->
                 locator_textContent (Nth l (i + j)) w = (inr t, w)) ->
    ProductsPage.clickProductTitle_loop l name (List.length texts) i w
    = match Titles.firstTitle name texts with
      | Some k => locator_click (Nth l (i + k)) w
      | None => (inl (ProductsPage.notFound name), w)
      end.
Proof.
  induction texts as [|t texts IH]; intros i H; [reflexivity|].
  cbn [List.length ProductsPage.clickProductTitle_loop Titles.firstTitle].
  unfold bind.
  pose proof (H 0%nat t eq_refl) as H0. rewrite Nat.add_0_r in H0.
  rewrite H0.
  destruct (ProductsPage.titleIs name t).
  - rewrite Nat.add_0_r. reflexivity.
  - rewrite IH.
    + destruct (Titles.firstTitle name texts) as [k|]; [|reflexivity].
      cbn [option_map]. rewrite Nat.add_succ_r. reflexivity.
    + intros j t' Hj. rewrite Nat.add_succ_l, <- Nat.add_succ_r.
      apply H. exact Hj.
Qed.

Lemma clickProductTitle_first (name : string) (w : W)
    (texts : list (option string)) :
  ShowsTexts w (Loc ".inventory_item_name") texts ->
  ProductsPage.clickProductTitle name w
  = match Titles.firstTitle name texts with
    | Some k => locator_click (Nth (Loc ".inventory_item_name") k) w
    | None => (inl (ProductsPage.notFound name), w)
    end.
Proof.
  intros [Hcount Htext]. unfold ProductsPage.clickProductTitle, bind.
  change ProductsPage.productName with ".inventory_item_name".
  rewrite Hcount.
  apply (clickProductTitle_loop_first _ name w texts 0 Htext).
Qed.

Lemma getProductNames_texts (w : W) (texts : list (option string)) :
  ShowsTexts w (Loc ".inventory_item_name") texts ->
  ProductsPage.getProductNames w
  = (inr (map JS.trim (Spec.keptTexts texts)), w).
Proof.
  intros [Hcount Htext]. unfold ProductsPage.getProductNames, bind.
  change ProductsPage.productName with ".inventory_item_name".
  rewrite Hcount. apply (getProductNames_loop_texts _ w texts 0 []).
  exact Htext.
Qed.

End ClickTitle.

(** X5: on a snapshot, [clickProductTitle] clicks the first title whose
    trimmed text is the name, and only that one; when no title has that
    text it throws [Product "<name>" not found] and clicks nothing. *)
Theorem clickProductTitle_first_match
    {W : Type} {P : Page W} (name : string) (w : W)
    (texts : list (option string)) :
  ShowsTexts w (Loc ".inventory_item_name") texts ->
  (forall k o,
     nth_error texts k = Some o -> ProductsPage.titleIs name o = true ->
     (forall j o', (j < k)%nat -> nth_error texts j = Some o' ->
                   ProductsPage.titleIs name o' = false) ->
     ProductsPage.clickProductTitle name w
     = locator_click (Nth (Loc ".inventory_item_name") k) w) /\
  ((forall o, In o texts -> ProductsPage.titleIs name o = false) ->
   ProductsPage.clickProductTitle name w
   = (inl ("Product " ++ dquote ++ name ++ dquote ++ " not found"), w)).
Proof.
  intros Hshows. rewrite (clickProductTitle_first name w texts Hshows).
  split.
  - intros k o Hk Ho Hbefore.
    rewrite (firstTitle_Some name texts k o Hk Ho Hbefore). reflexivity.
  - intros Hnone. rewrite (firstTitle_None name texts Hnone). reflexivity.
Qed.

Lemma inventory_shows_names :
  ShowsTexts Demo.inventory (Loc ".inventory_item_name")
    [ Some "Sauce Labs Backpack"; Some " Sauce Labs Bike Light " ].
Proof.
  split; [reflexivity|].
  intros [|[|[|i]]] t H; simpl in H; inversion H; reflexivity.
Defined.

Lemma clickProductTitle_first_match_witness :
  ProductsPage.clickProductTitle "Sauce Labs Bike Light" Demo.inventory
  = (inr tt, Demo.record "click nth" Demo.inventory) /\
  ProductsPage.clickProductTitle "Sauce Labs Onesie" Demo.inventory
  = (inl ("Product " ++ dquote ++ "Sauce Labs Onesie" ++ dquote
          ++ " not found"), Demo.inventory).
Proof.
  split.
  - apply (proj1 (clickProductTitle_first_match
                    "Sauce Labs Bike Light" Demo.inventory _
                    inventory_shows_names)
             1%nat (Some " Sauce Labs Bike Light ")); try reflexivity.
    intros [|j] o' Hj Ho'; [|lia]. injection Ho' as <-. reflexivity.
  - apply (proj2 (clickProductTitle_first_match
                    "Sauce Labs Onesie" Demo.inventory _
                    inventory_shows_names)).
    intros o [<-|[<-|[]]]; reflexivity.
Defined.

Lemma In_keptTexts (name : string) (texts : list (option string)) :
  In name (map JS.trim (Spec.keptTexts texts)) ->
  exists o, In o texts /\ ProductsPage.titleIs name o = true.
Proof.
  induction texts as [|t texts IH]; [intros []|].
  destruct t as [t|]; cbn [Spec.keptTexts].
  - destruct (JS.truthy t).
    + intros [E|H].
      * exists (Some t). split; [left; reflexivity|].
        simpl. apply String.eqb_eq. exact E.
      * destruct (IH H) as (o & Ho & Hm). exists o. split; [right|]; auto.
    + intros H. destruct (IH H) as (o & Ho & Hm).
      exists o. split; [right|]; auto.
  - intros H. destruct (IH H) as (o & Ho & Hm).
    exists o. split; [right|]; auto.
Qed.

Lemma titleIs_kept (name : string) (texts : list (option string)) (o : option string) :
  name <> "" -> In o texts -> ProductsPage.titleIs name o = true ->
  In name (map JS.trim (Spec.keptTexts texts)).
Proof.
  intros Hname. induction texts as [|t texts IH]; [intros []|].
  intros [->|Hin] Hm.
  - destruct o as [t|]; [|discriminate Hm]. simpl in Hm.
    apply String.eqb_eq in Hm. cbn [Spec.keptTexts].
    destruct t as [|c t];
      [exfalso; apply Hname; rewrite <- Hm; reflexivity|].
    cbn [JS.truthy map]. left. exact Hm.
  - specialize (IH Hin Hm).
    destruct t as [t|]; cbn [Spec.keptTexts]; [|exact IH].
    destruct (JS.truthy t); [right|]; exact IH.
Qed.

Lemma firstTitle_not_None (name : string) (texts : list (option string))
    (o : option string) :
  In o texts -> ProductsPage.titleIs name o = true ->
  exists k, Titles.firstTitle name texts = Some k.
Proof.
  induction texts as [|t texts IH]; [intros []|].
  intros Hin Hm. cbn [Titles.firstTitle].
  destruct (ProductsPage.titleIs name t) eqn:Ht; [exists 0%nat; reflexivity|].
  destruct Hin as [E|Hin]; [subst t; rewrite Hm in Ht; discriminate Ht|].
  destruct (IH Hin Hm) as [k ->]. exists (S k). reflexivity.
Qed.

(** X6: on a snapshot, every name [getProductNames] lists can be clicked:
    [clickProductTitle] finds a title whose trimmed text is that name and
    clicks it; and a non-empty name that is not listed is not found. *)
Theorem listed_names_can_be_clicked
    {W : Type} {P : Page W} (w : W) (texts : list (option string)) :
  ShowsTexts w (Loc ".inventory_item_name") texts ->
  exists names,
    ProductsPage.getProductNames w = (inr names, w) /\
    (forall name,
       In name names ->
       exists k t,
         nth_error texts k = Some (Some t) /\ JS.trim t = name /\
         ProductsPage.clickProductTitle name w
         = locator_click (Nth (Loc ".inventory_item_name") k) w) /\
    (forall name,
       name <> "" -> ~ In name names ->
       ProductsPage.clickProductTitle name w
       = (inl (ProductsPage.notFound name), w)).
Proof.
  intros Hshows. exists (map JS.trim (Spec.keptTexts texts)).
  split; [apply getProductNames_texts; exact Hshows|]. split.
  - intros name Hin.
    destruct (In_keptTexts name texts Hin) as (o & Ho & Hm).
    destruct (firstTitle_not_None name texts o Ho Hm) as [k Hk].
    destruct (firstTitle_found name texts k Hk) as (o' & Hnth & Hm').
    destruct o' as [t|]; [|discriminate Hm'].
    exists k, t. split; [exact Hnth|]. split.
    + apply String.eqb_eq. exact Hm'.
    + rewrite (clickProductTitle_first name w texts Hshows), Hk.
      reflexivity.
  - intros name Hname Hnot.
    rewrite (clickProductTitle_first name w texts Hshows).
    rewrite firstTitle_None; [reflexivity|].
    intros o Ho. destruct (ProductsPage.titleIs name o) eqn:Hm;
      [|reflexivity].
    destruct (Hnot (titleIs_kept name texts o Hname Ho Hm)).
Qed.

Lemma listed_names_can_be_clicked_witness :
  exists names,
    ProductsPage.getProductNames Demo.inventory = (inr names, Demo.inventory) /\
    (forall name,
       In name names ->
       exists k t,
         nth_error [ Some "Sauce Labs Backpack";
                     Some " Sauce Labs Bike Light " ] k = Some (Some t) /\
         JS.trim t = name /\
         ProductsPage.clickProductTitle name Demo.inventory
         = locator_click (Nth (Loc ".inventory_item_name") k) Demo.inventory) /\
    (forall name,
       name <> "" -> ~ In name names ->
       ProductsPage.clickProductTitle name Demo.inventory
       = (inl (ProductsPage.notFound name), Demo.inventory)).
Proof.
  apply (listed_names_can_be_clicked Demo.inventory _ inventory_shows_names).
Defined.

(** ** What the listing loops keep, whatever the page does *)

Section ListingLoops.
Context {W : Type} {P : Page W}.

Lemma keptName_trimmed (names : list string) (t : option string) :
  Forall (fun n => JS.trim n = n) names ->
  Forall (fun n => JS.trim n = n) (Titles.keptName names t) /\
  (List.length (Titles.keptName names t) <= S (List.length names))%nat.
Proof.
  intros H. destruct t as [n|]; [destruct (JS.truthy n) eqn:E|];
    unfold Titles.keptName; rewrite ?E; try (split; [exact H | lia]).
  split.
  - apply Forall_app. split; [exact H|].
    constructor; [apply trim_idempotent | constructor].
  - rewrite length_app. simpl. lia.
Qed.

Lemma getProductNames_loop_keeps (l : Locator) (remaining : nat) :
  forall i names w res w',
    Forall (fun n => JS.trim n = n) names ->
    ProductsPage.getProductNames_loop l remaining i names w = (inr res, w') ->
    Forall (fun n => JS.trim n = n) res /\
    (List.length res <= List.length names + remaining)%nat.
Proof.
  induction remaining as [|r IH]; intros i names w res w' Hnames H.
  - injection H as <- <-. split; [exact Hnames | lia].
  - cbn [ProductsPage.getProductNames_loop] in H. unfold bind in H.
    destruct (locator_textContent (Nth l i) w) as [[e|t] w1];
      [discriminate H|].
    destruct (keptName_trimmed names t Hnames) as [Hk Hlen].
    destruct (IH _ _ _ _ _ Hk H) as [Hres Hle].
    split; [exact Hres | lia].
Qed.

Lemma getCartItemNames_loop_keeps (elements : list Locator) :
  forall names w res w',
    Forall (fun n => JS.trim n = n) names ->
    CartPage.getCartItemNames_loop elements names w = (inr res, w') ->
    Forall (fun n => JS.trim n = n) res /\
    (List.length res <= List.length names + List.length elements)%nat.
Proof.
  induction elements as [|el elements IH]; intros names w res w' Hnames H.
  - injection H as <- <-. split; [exact Hnames | simpl; lia].
  - cbn [CartPage.getCartItemNames_loop] in H. unfold bind in H.
    destruct (locator_textContent el w) as [[e|t] w1]; [discriminate H|].
    destruct (keptName_trimmed names t Hnames) as [Hk Hlen].
    destruct (IH _ _ _ _ Hk H) as [Hres Hle].
    split; [exact Hres | simpl; lia].
Qed.

Lemma getProductPrices_loop_length (l : Locator) (remaining : nat) :
  forall i prices w res w',
    ProductsPage.getProductPrices_loop l remaining i prices w = (inr res, w') ->
    (List.length res <= List.length prices + remaining)%nat.
Proof.
  induction remaining as [|r IH]; intros i prices w res w' H.
  - injection H as <- <-. lia.
  - cbn [ProductsPage.getProductPrices_loop] in H. unfold bind in H.
    destruct (locator_textContent (Nth l i) w) as [[e|t] w1];
      [discriminate H|].
    apply IH in H.
    destruct t as [t|]; [destruct (JS.truthy t)|]; try lia.
    rewrite length_app in H. simpl in H. lia.
Qed.

(** The first read that throws ends the loop with that error. *)
Lemma getProductNames_loop_throws (l : Locator) (w w' : W) (e : Error)
    (before : list (option string)) :
  forall i names remaining,
    (forall j t, nth_error before j = Some t ->
                 locator_textContent (Nth l (i + j)) w = (inr t, w)) ->
    locator_textContent (Nth l (i + List.length before)) w = (inl e, w') ->
    (List.length before < remaining)%nat ->
    ProductsPage.getProductNames_loop l remaining i names w = (inl e, w').
Proof.
  induction before as [|t before IH]; intros i names remaining Hread He Hlt;
    (destruct remaining as [|r]; [simpl in Hlt; lia|]);
    cbn [ProductsPage.getProductNames_loop]; unfold bind.
  - simpl in He. rewrite Nat.add_0_r in He. rewrite He. reflexivity.
  - pose proof (Hread 0%nat t eq_refl) as H0. rewrite Nat.add_0_r in H0.
    rewrite H0. apply IH.
    + intros j t' Hj. rewrite Nat.add_succ_l, <- Nat.add_succ_r.
      apply Hread. exact Hj.
    + simpl in He. rewrite Nat.add_succ_r in He. exact He.
    + simpl in Hlt. lia.
Qed.

Lemma getProductPrices_loop_throws (l : Locator) (w w' : W) (e : Error)
    (before : list (option string)) :
  forall i prices remaining,
    (forall j t, nth_error before j = Some t ->
                 locator_textContent (Nth l (i + j)) w = (inr t, w)) ->
    locator_textContent (Nth l (i + List.length before)) w = (inl e, w') ->
    (List.length before < remaining)%nat ->
    ProductsPage.getProductPrices_loop l remaining i prices w = (inl e, w').
Proof.
  induction before as [|t before IH]; intros i prices remaining Hread He Hlt;
    (destruct remaining as [|r]; [simpl in Hlt; lia|]);
    cbn [ProductsPage.getProductPrices_loop]; unfold bind.
  - simpl in He. rewrite Nat.add_0_r in He. rewrite He. reflexivity.
  - pose proof (Hread 0%nat t eq_refl) as H0. rewrite Nat.add_0_r in H0.
    rewrite H0. apply IH.
    + intros j t' Hj. rewrite Nat.add_succ_l, <- Nat.add_succ_r.
      apply Hread. exact Hj.
    + simpl in He. rewrite Nat.add_succ_r in He. exact He.
    + simpl in Hlt. lia.
Qed.

End ListingLoops.

(** X7: whatever the page does, the names [getProductNames] and
    [getCartItemNames] return are trimmed, and the lists are never longer
    than the number of matching elements the page reported; the same bound
    holds for the prices of [getProductPrices]. *)
Theorem listings_bounded_and_trimmed {W : Type} {P : Page W} (w w' : W) :
  (forall names,
     ProductsPage.getProductNames w = (inr names, w') ->
     Forall (fun n => JS.trim n = n) names /\
     exists count w1,
       locator_count (Loc ".inventory_item_name") w = (inr count, w1) /\
       (List.length names <= count)%nat) /\
  (forall prices,
     ProductsPage.getProductPrices w = (inr prices, w') ->
     exists count w1,
       locator_count (Loc ".inventory_item_price") w = (inr count, w1) /\
       (List.length prices <= count)%nat) /\
  (forall names,
     CartPage.getCartItemNames w = (inr names, w') ->
     Forall (fun n => JS.trim n = n) names /\
     exists elements w1,
       locator_all (Loc ".inventory_item_name") w = (inr elements, w1) /\
       (List.length names <= List.length elements)%nat).
Proof.
  split; [|split].
  - intros names H. unfold ProductsPage.getProductNames, bind in H.
    change ProductsPage.productName with ".inventory_item_name" in H.
    destruct (locator_count (Loc ".inventory_item_name") w)
      as [[e|count] w1]; [discriminate H|].
    destruct (getProductNames_loop_keeps _ _ _ _ _ _ _ (Forall_nil _) H)
      as [Hres Hle].
    split; [exact Hres|]. exists count, w1. split; [reflexivity | exact Hle].
  - intros prices H. unfold ProductsPage.getProductPrices, bind in H.
    change ProductsPage.productPrice with ".inventory_item_price" in H.
    destruct (locator_count (Loc ".inventory_item_price") w)
      as [[e|count] w1]; [discriminate H|].
    apply getProductPrices_loop_length in H.
    exists count, w1. split; [reflexivity | exact H].
  - intros names H. unfold CartPage.getCartItemNames, bind in H.
    change CartPage.cartItemName with ".inventory_item_name" in H.
    destruct (locator_all (Loc ".inventory_item_name") w)
      as [[e|elements] w1]; [discriminate H|].
    destruct (getCartItemNames_loop_keeps _ _ _ _ _ (Forall_nil _) H)
      as [Hres Hle].
    split; [exact Hres|]. exists elements, w1.
    split; [reflexivity | exact Hle].
Qed.

Lemma listings_bounded_and_trimmed_witness :
  Forall (fun n => JS.trim n = n)
    [ "Sauce Labs Backpack"; "Sauce Labs Bike Light" ] /\
  exists count w1,
    locator_count (Loc ".inventory_item_name") Demo.inventory
    = (inr count, w1) /\
    (List.length [ "Sauce Labs Backpack"; "Sauce Labs Bike Light" ]
     <= count)%nat.
Proof.
  apply (proj1 (listings_bounded_and_trimmed Demo.inventory Demo.inventory)).
  reflexivity.
Defined.

(** X8: [getProductNames] and [getProductPrices] return no partial list:
    when the count throws, or when reading the text of some element throws
    after the earlier ones were read, the call throws that error. *)
Theorem listings_throw_on_first_error
    {W : Type} {P : Page W} (w w' : W) (e : Error) :
  (locator_count (Loc ".inventory_item_name") w = (inl e, w') ->
   ProductsPage.getProductNames w = (inl e, w')) /\
  (locator_count (Loc ".inventory_item_price") w = (inl e, w') ->
   ProductsPage.getProductPrices w = (inl e, w')) /\
  (forall count before,
     (List.length before < count)%nat ->
     (forall j t, nth_error before j = Some t ->
                  locator_textContent (Nth (Loc ".inventory_item_name") j) w
                  = (inr t, w)) ->
     locator_textContent
       (Nth (Loc ".inventory_item_name") (List.length before)) w
     = (inl e, w') ->
     locator_count (Loc ".inventory_item_name") w = (inr count, w) ->
     ProductsPage.getProductNames w = (inl e, w')) /\
  (forall count before,
     (List.length before < count)%nat ->
     (forall j t, nth_error before j = Some t ->
                  locator_textContent (Nth (Loc ".inventory_item_price") j) w
                  = (inr t, w)) ->
     locator_textContent
       (Nth (Loc ".inventory_item_price") (List.length before)) w
     = (inl e, w') ->
     locator_count (Loc ".inventory_item_price") w = (inr count, w) ->
     ProductsPage.getProductPrices w = (inl e, w')).
Proof.
  unfold ProductsPage.getProductNames, ProductsPage.getProductPrices, bind.
  change ProductsPage.productName with ".inventory_item_name".
  change ProductsPage.productPrice with ".inventory_item_price".
  split; [|split; [|split]].
  - intros ->. reflexivity.
  - intros ->. reflexivity.
  - intros count before Hlt Hread He ->.
    apply (getProductNames_loop_throws _ w w' e before 0 [] count);
      assumption.
  - intros count before Hlt Hread He ->.
    apply (getProductPrices_loop_throws _ w w' e before 0 [] count);
      assumption.
Qed.

Lemma listings_throw_on_first_error_witness :
  ProductsPage.getProductNames (P := Demo.stale) Demo.inventory
  = (inl "Timeout exceeded", Demo.inventory) /\
  ProductsPage.getProductPrices (P := Demo.stale) Demo.inventory
  = (inl "Timeout exceeded", Demo.inventory).
Proof.
  split.
  - apply (proj1 (proj2 (proj2 (listings_throw_on_first_error
                                  (P := Demo.stale) Demo.inventory
                                  Demo.inventory "Timeout exceeded")))
             3%nat [ Some "Sauce Labs Backpack";
                     Some " Sauce Labs Bike Light " ]);
      try reflexivity; [simpl; lia|].
    intros [|[|[|j]]] t H; simpl in H; inversion H; reflexivity.
  - apply (proj2 (proj2 (proj2 (listings_throw_on_first_error
                                  (P := Demo.stale) Demo.inventory
                                  Demo.inventory "Timeout exceeded")))
             3%nat [ Some "$29.99"; Some "$9.99" ]);
      try reflexivity; [simpl; lia|].
    intros [|[|[|j]]] t H; simpl in H; inversion H; reflexivity.
Defined.

(** ** The badge count is an integer *)

Lemma parseInt10_cases (s : string) :
  Num.parseInt10 s = Num.NaN \/
  exists z, Num.parseInt10 s = Num.toDouble (inject_Z z).
Proof.
  unfold Num.parseInt10.
  destruct (Num.takeSign (JS.dropWhile JS.isWhiteSpace s)) as [negative s2].
  destruct (JS.truthy (JS.takeWhile JS.isDigit s2)); [right | left; reflexivity].
  rewrite signed_inject_Z. eexists. reflexivity.
Qed.

(** X9: whatever the page does, [getCartBadgeCount] and [getCartItemCount]
    return an integer or, for a text beyond the range of the doubles, an
    infinity, never NaN; and they throw only when the badge was seen and
    reading its text then threw: an error of the visibility check never
    surfaces. *)
Theorem badge_count_integer
    {W : Type} {P : Page W} (w w' : W) (method : Async W Num.number) :
  In method [ ProductsPage.getCartBadgeCount; CartPage.getCartItemCount ] ->
  (forall n, method w = (inr n, w') ->
             (exists z, n = Num.Finite (inject_Z z)) \/
             (exists negative, n = Num.Infinity negative)) /\
  (forall e, method w = (inl e, w') ->
             exists w1,
               locator_isVisible (Loc ".shopping_cart_badge") w
               = (inr true, w1) /\
               locator_textContent (Loc ".shopping_cart_badge") w1
               = (inl e, w')).
Proof.
  intros Hin.
  assert (Hm : method
               = (visible <- BasePage.isVisible ".shopping_cart_badge" ;;
                  if negb visible then ret Num.zero
                  else text <- BasePage.getText ".shopping_cart_badge" ;;
                       ret (Num.orElse (Num.parseInt10 text) Num.zero))).
  { destruct Hin as [<-|[<-|[]]]; reflexivity. }
  subst method.
  unfold bind, BasePage.isVisible, BasePage.getText, tryCatch, bind, ret.
  destruct (locator_isVisible (Loc ".shopping_cart_badge") w)
    as [[e0|[|]] w1]; cbn [negb].
  - split; intros ? H; [|discriminate H].
    injection H as <- <-. left. exists 0%Z. reflexivity.
  - destruct (locator_textContent (Loc ".shopping_cart_badge") w1)
      as [[e1|raw] w2] eqn:Htext.
    + split; intros ? H; [discriminate H|].
      injection H as <- <-. exists w1. split; [reflexivity | exact Htext].
    + split; intros ? H; [|discriminate H].
      injection H as <- <-.
      destruct (parseInt10_cases (BasePage.trimOrEmpty raw)) as [->|[z ->]].
      * left. exists 0%Z. reflexivity.
      * rewrite orElse_toDouble_integer. apply toDouble_integer.
  - split; intros ? H; [|discriminate H].
    injection H as <- <-. left. exists 0%Z. reflexivity.
Qed.

Lemma badge_count_integer_witness :
  (exists z, Num.Finite (inject_Z 1) = Num.Finite (inject_Z z)) \/
  (exists negative, Num.Finite (inject_Z 1) = Num.Infinity negative).
Proof.
  apply (proj1 (badge_count_integer (P := Demo.page) Demo.inventory
                  Demo.inventory
                  ProductsPage.getCartBadgeCount (or_introl eq_refl))).
  vm_compute. reflexivity.
Defined.

(** ** Every text has a first amount or none *)

Lemma AmountAt_cons_inv (c c' : ascii) (s pre ip fp post : string) :
  Spec.AmountAt (String c s) (String c' pre) ip fp post ->
  Spec.AmountAt s pre ip fp post.
Proof.
  intros (E & H). cbn [append] in E. injection E as _ E.
  split; assumption.
Qed.

Lemma NoAmount_nil : Spec.NoAmount "".
Proof. intros [|c pre] ip fp post (E & _); discriminate E. Qed.

Lemma first_amount_or_none (text : string) :
  Spec.NoAmount text \/
  exists pre ip fp post, Spec.FirstAmount text pre ip fp post.
Proof.
  induction text as [|c text IH]; [left; apply NoAmount_nil|].
  destruct (CheckoutOverviewPage.matchAmountHere (String c text))
    as [m|] eqn:Hhere.
  - right. apply matchAmountHere_sound in Hhere
      as (ip & fp & post & Hat & _ & Hmax).
    exists "", ip, fp, post. split; [exact Hat|]. split; [exact Hmax|].
    intros. simpl. lia.
  - destruct IH as [Hno|(pre & ip & fp & post & Hat & Hmax & Hmin)].
    + left. intros [|c' pre] ip fp post H.
      * exact (matchAmountHere_None _ _ _ _ Hhere H).
      * apply AmountAt_cons_inv in H. exact (Hno _ _ _ _ H).
    + right. exists (String c pre), ip, fp, post.
      split; [apply AmountAt_cons; exact Hat|]. split; [exact Hmax|].
      intros [|c' pre'] ip' fp' post' H.
      * destruct (matchAmountHere_None _ _ _ _ Hhere H).
      * apply AmountAt_cons_inv in H. apply Hmin in H. simpl. lia.
Qed.

Lemma digitOf_nonneg (c : ascii) : (0 <= Spec.digitOf c)%Z.
Proof. each_char c. Qed.

Lemma decimal_nonneg (s : string) : (0 <= Spec.decimal s)%Z.
Proof.
  induction s as [|c s IH]; [reflexivity|]. cbn [Spec.decimal].
  pose proof (digitOf_nonneg c).
  assert (0 <= 10 ^ Z.of_nat (String.length s))%Z
    by (apply Z.pow_nonneg; lia).
  nia.
Qed.

Lemma decimalValue_nonneg (ip fp : string) : 0 <= Spec.decimalValue ip fp.
Proof.
  unfold Spec.decimalValue. rewrite Qred_correct.
  pose proof (decimal_nonneg (ip ++ fp)).
  unfold Qle. cbn [Qnum Qden]. lia.
Qed.

(** X10: [getSubtotal], [getTax] and [getTotal] never return NaN or a
    negative number, be it the negative infinity; what they return is 0
    for a text without an amount and otherwise the double for the value of
    its first amount, so that a result other than 0 shows the label holds
    an amount.  A sign before or after the dollar sign is not read. *)
Theorem summary_amounts_nonnegative
    {W : Type} {P : Page W} (w : W)
    (method : Async W Num.number) (label : string) :
  In (method, label)
     [ (CheckoutOverviewPage.getSubtotal, ".summary_subtotal_label");
       (CheckoutOverviewPage.getTax, ".summary_tax_label");
       (CheckoutOverviewPage.getTotal, ".summary_total_label") ] ->
  forall raw w',
    locator_textContent (Loc label) w = (inr raw, w') ->
    let text := match raw with Some t => t | None => "" end in
    exists n,
      method w = (inr n, w') /\ Num.nonNegative n /\
      (Spec.NoAmount text /\ n = Num.Finite 0
       \/ exists pre ip fp post,
            Spec.FirstAmount text pre ip fp post /\
            n = Num.toDouble (Spec.decimalValue ip fp)).
Proof.
  intros Hin raw w' Htext.
  assert (Hm : method
               = (text <- BasePage.getText label ;;
                  ret (CheckoutOverviewPage.amountOf text))).
  { destruct Hin as [E|[E|[E|[]]]]; injection E as <- <-; reflexivity. }
  subst method. unfold bind, BasePage.getText, bind, ret. rewrite Htext.
  rewrite amountOf_trimOrEmpty. cbv zeta.
  destruct (first_amount_or_none (match raw with Some t => t | None => "" end))
    as [Hno|(pre & ip & fp & post & Hfirst)].
  - exists (Num.Finite 0). rewrite (amountOf_none _ Hno).
    split; [reflexivity|]. split; [apply Qle_refl|]. left. split; auto.
  - exists (Num.toDouble (Spec.decimalValue ip fp)).
    rewrite (amountOf_first _ pre ip fp post Hfirst).
    split; [reflexivity|].
    split; [apply toDouble_nonNegative, decimalValue_nonneg|].
    right. exists pre, ip, fp, post. split; auto.
Qed.

Lemma summary_amounts_nonnegative_witness :
  exists n,
    CheckoutOverviewPage.getTax (Demo.withTax Demo.hugeTax)
    = (inr n, Demo.withTax Demo.hugeTax) /\ Num.nonNegative n /\
    (Spec.NoAmount Demo.hugeTax /\ n = Num.Finite 0
     \/ exists pre ip fp post,
          Spec.FirstAmount Demo.hugeTax pre ip fp post /\
          n = Num.toDouble (Spec.decimalValue ip fp)).
Proof.
  apply (summary_amounts_nonnegative (P := Demo.page)
           (Demo.withTax Demo.hugeTax)
           CheckoutOverviewPage.getTax ".summary_tax_label"
           (or_intror (or_introl eq_refl))
           (Some Demo.hugeTax) (Demo.withTax Demo.hugeTax) eq_refl).
Defined.

(** ** [parseFloat] does not see surrounding white space *)

Lemma isWhiteSpace_not_sign (c : ascii) :
  JS.isWhiteSpace c = true ->
  (JS.code c =? 45)%N = false /\ (JS.code c =? 43)%N = false.
Proof. each_char c. Qed.

Lemma isWhiteSpace_not_e (c : ascii) :
  JS.isWhiteSpace c = true ->
  ((JS.code c =? 101) || (JS.code c =? 69))%N = false.
Proof. each_char c. Qed.

Lemma isWhiteSpace_not_isDot (c : ascii) :
  JS.isWhiteSpace c = true -> JS.isDot c = false.
Proof. each_char c. Qed.

Lemma dropWhile_dropWhileEnd (s : string) :
  JS.dropWhile JS.isWhiteSpace (JS.dropWhileEnd JS.isWhiteSpace s)
  = JS.dropWhileEnd JS.isWhiteSpace (JS.dropWhile JS.isWhiteSpace s).
Proof.
  induction s as [|c s IH]; [reflexivity|].
  cbn [JS.dropWhile]. destruct (JS.isWhiteSpace c) eqn:Hc.
  - destruct (dropWhileEnd_cons JS.isWhiteSpace c s) as [->|(-> & _ & Hs)].
    + cbn [JS.dropWhile]. rewrite Hc. exact IH.
    + rewrite <- IH, Hs. reflexivity.
  - destruct (dropWhileEnd_head JS.isWhiteSpace c s Hc) as [u ->].
    cbn [JS.dropWhile]. rewrite Hc. reflexivity.
Qed.

Lemma takeSign_dropWhileEnd (s : string) :
  Num.takeSign (JS.dropWhileEnd JS.isWhiteSpace s)
  = (fst (Num.takeSign s),
     JS.dropWhileEnd JS.isWhiteSpace (snd (Num.takeSign s))).
Proof.
  destruct s as [|c s]; [reflexivity|].
  destruct (dropWhileEnd_cons JS.isWhiteSpace c s) as [E|(E & Hc & _)].
  - rewrite E. unfold Num.takeSign.
    destruct (JS.code c =? 45)%N; [reflexivity|].
    destruct (JS.code c =? 43)%N; [reflexivity|].
    cbn [fst snd]. rewrite E. reflexivity.
  - rewrite E. unfold Num.takeSign.
    destruct (isWhiteSpace_not_sign c Hc) as [-> ->].
    cbn [fst snd]. rewrite E. reflexivity.
Qed.

Lemma prefix_dropWhileEnd (p : string) :
  JS.forallb (fun c => negb (JS.isWhiteSpace c)) p = true ->
  forall s,
    String.prefix p (JS.dropWhileEnd JS.isWhiteSpace s) = String.prefix p s.
Proof.
  induction p as [|a p IH]; intros Hp s.
  { assert (N : forall x, String.prefix "" x = true)
      by (intros [|]; reflexivity).
    rewrite !N. reflexivity. }
  cbn [JS.forallb] in Hp. apply andb_true_iff in Hp as [Ha Hp].
  destruct s as [|b s]; [reflexivity|].
  destruct (dropWhileEnd_cons JS.isWhiteSpace b s) as [->|(-> & Hb & _)].
  - cbn [String.prefix]. destruct (ascii_dec a b); [apply IH; exact Hp|].
    reflexivity.
  - cbn [String.prefix]. destruct (ascii_dec a b) as [->|]; [|reflexivity].
    rewrite Hb in Ha. discriminate Ha.
Qed.

Lemma exponentPart_dropWhileEnd (s : string) :
  Num.exponentPart (JS.dropWhileEnd JS.isWhiteSpace s) = Num.exponentPart s.
Proof.
  destruct s as [|c s]; [reflexivity|].
  destruct (dropWhileEnd_cons JS.isWhiteSpace c s) as [->|(-> & Hc & _)].
  - unfold Num.exponentPart.
    destruct ((JS.code c =? 101) || (JS.code c =? 69))%N; [|reflexivity].
    rewrite takeSign_dropWhileEnd.
    destruct (Num.takeSign s) as [negative r]. cbn [fst snd].
    rewrite takeWhile_isDigit_dropWhileEnd. reflexivity.
  - unfold Num.exponentPart. rewrite (isWhiteSpace_not_e c Hc). reflexivity.
Qed.

Lemma parseFloat_dropWhileEnd (s : string) :
  JS.dropWhile JS.isWhiteSpace s = s ->
  Num.parseFloat (JS.dropWhileEnd JS.isWhiteSpace s) = Num.parseFloat s.
Proof.
  intros Hs. unfold Num.parseFloat.
  rewrite dropWhile_dropWhileEnd, Hs, takeSign_dropWhileEnd.
  destruct (Num.takeSign s) as [negative s2]. cbn [fst snd].
  rewrite (prefix_dropWhileEnd "Infinity" eq_refl).
  destruct (String.prefix "Infinity" s2); [reflexivity|].
  rewrite takeWhile_isDigit_dropWhileEnd, dropWhile_isDigit_dropWhileEnd.
  destruct (JS.dropWhile JS.isDigit s2) as [|c r]; [reflexivity|].
  destruct (dropWhileEnd_cons JS.isWhiteSpace c r) as [E|(E & Hc & _)].
  - rewrite E. destruct (JS.isDot c).
    + rewrite takeWhile_isDigit_dropWhileEnd, dropWhile_isDigit_dropWhileEnd,
        exponentPart_dropWhileEnd.
      reflexivity.
    + rewrite <- E, exponentPart_dropWhileEnd. reflexivity.
  - rewrite E, (isWhiteSpace_not_isDot c Hc).
    rewrite <- (exponentPart_dropWhileEnd (String c r)), E. reflexivity.
Qed.

Lemma dropWhile_idempotent (p : ascii -> bool) (s : string) :
  JS.dropWhile p (JS.dropWhile p s) = JS.dropWhile p s.
Proof.
  induction s as [|c s IH]; [reflexivity|]. simpl.
  destruct (p c) eqn:E; [exact IH|]. simpl. rewrite E. reflexivity.
Qed.

Lemma parseFloat_trim (s : string) :
  Num.parseFloat (JS.trim s) = Num.parseFloat s.
Proof.
  unfold JS.trim.
  rewrite parseFloat_dropWhileEnd by apply dropWhile_idempotent.
  unfold Num.parseFloat. rewrite dropWhile_idempotent. reflexivity.
Qed.

(** X11: [getItemPrices] returns one number for each text the page
    lists, in the same order, and reads each text exactly as
    [getProductPrices] does: [parseFloat] of the text without its first
    dollar sign (the extra [trim] changes nothing); [getItemNames] returns
    the texts trimmed, one for each. *)
Theorem overview_items_as_listed
    {W : Type} {P : Page W} {T : LocatorTexts W} (w w' : W)
    (texts : list string) :
  (locator_allTextContents (Loc ".inventory_item_price") w = (inr texts, w') ->
   CheckoutOverviewPage.getItemPrices w
   = (inr (map (fun t => Num.parseFloat
                           (JS.replaceFirstChar JS.isDollar "" t)) texts),
      w')) /\
  (locator_allTextContents (Loc ".inventory_item_name") w = (inr texts, w') ->
   exists names,
     CheckoutOverviewPage.getItemNames w = (inr names, w') /\
     List.length names = List.length texts /\
     Forall2 (fun t n => n = JS.trim t /\ JS.trim n = n) texts names).
Proof.
  split.
  - intros H. unfold CheckoutOverviewPage.getItemPrices, bind, ret.
    change CheckoutOverviewPage.itemPrices with ".inventory_item_price".
    rewrite H. do 2 f_equal. apply map_ext. intros t. apply parseFloat_trim.
  - intros H. exists (map JS.trim texts).
    unfold CheckoutOverviewPage.getItemNames, bind, ret.
    change CheckoutOverviewPage.itemNames with ".inventory_item_name".
    rewrite H. split; [reflexivity|]. split; [apply length_map|].
    clear H. induction texts as [|t texts IH]; constructor; [|exact IH].
    split; [reflexivity | apply trim_idempotent].
Qed.

Lemma overview_items_as_listed_witness :
  CheckoutOverviewPage.getItemPrices Demo.inventory
  = (inr [ Num.Finite (8441434551552573 # 281474976710656);
           Num.Finite (5623870034678907 # 562949953421312) ],
     Demo.inventory) /\
  exists names,
    CheckoutOverviewPage.getItemNames Demo.inventory
    = (inr names, Demo.inventory) /\
    List.length names = 2%nat /\
    Forall2 (fun t n => n = JS.trim t /\ JS.trim n = n)
      [ "Sauce Labs Backpack"; " Sauce Labs Bike Light " ] names.
Proof.
  split.
  - etransitivity; [|vm_compute; reflexivity].
    apply (proj1 (overview_items_as_listed (P := Demo.page) (T := Demo.texts)
                    Demo.inventory Demo.inventory [ "$29.99"; "$9.99" ])).
    reflexivity.
  - apply (proj2 (overview_items_as_listed Demo.inventory Demo.inventory
                    [ "Sauce Labs Backpack"; " Sauce Labs Bike Light " ])).
    reflexivity.
Defined.

(** ** Forms are filled in order *)

(** X12: [login] fills the user name, then the password, then clicks the
    login button, and [fillCheckoutInfo] fills first name, last name and
    postal code in that order; a step that throws ends the call with its
    error, and the later fields are not touched. *)
Theorem forms_stop_at_first_error {W : Type} {P : Page W} (w : W)
    (a b c : string) :
  (forall e w1,
     locator_fill (Loc (dataTest "username")) a w = (inl e, w1) ->
     LoginPage.login a b w = (inl e, w1)) /\
  (forall w1 e w2,
     locator_fill (Loc (dataTest "username")) a w = (inr tt, w1) ->
     locator_fill (Loc (dataTest "password")) b w1 = (inl e, w2) ->
     LoginPage.login a b w = (inl e, w2)) /\
  (forall w1 w2,
     locator_fill (Loc (dataTest "username")) a w = (inr tt, w1) ->
     locator_fill (Loc (dataTest "password")) b w1 = (inr tt, w2) ->
     LoginPage.login a b w
     = locator_click (Loc (dataTest "login-button")) w2) /\
  (forall e w1,
     locator_fill (Loc (dataTest "firstName")) a w = (inl e, w1) ->
     CheckoutInfoPage.fillCheckoutInfo a b c w = (inl e, w1)) /\
  (forall w1 e w2,
     locator_fill (Loc (dataTest "firstName")) a w = (inr tt, w1) ->
     locator_fill (Loc (dataTest "lastName")) b w1 = (inl e, w2) ->
     CheckoutInfoPage.fillCheckoutInfo a b c w = (inl e, w2)) /\
  (forall w1 w2,
     locator_fill (Loc (dataTest "firstName")) a w = (inr tt, w1) ->
     locator_fill (Loc (dataTest "lastName")) b w1 = (inr tt, w2) ->
     CheckoutInfoPage.fillCheckoutInfo a b c w
     = locator_fill (Loc (dataTest "postalCode")) c w2).
Proof.
  unfold LoginPage.login, CheckoutInfoPage.fillCheckoutInfo, bind,
    BasePage.fill, BasePage.click.
  change LoginPage.usernameInput with (dataTest "username").
  change LoginPage.passwordInput with (dataTest "password").
  change LoginPage.loginButton with (dataTest "login-button").
  change CheckoutInfoPage.firstNameInput with (dataTest "firstName").
  change CheckoutInfoPage.lastNameInput with (dataTest "lastName").
  change CheckoutInfoPage.postalCodeInput with (dataTest "postalCode").
  repeat split.
  - intros e w1 ->. reflexivity.
  - intros w1 e w2 -> ->. reflexivity.
  - intros w1 w2 -> ->. reflexivity.
  - intros e w1 ->. reflexivity.
  - intros w1 e w2 -> ->. reflexivity.
  - intros w1 w2 -> ->. reflexivity.
Qed.

Lemma forms_stop_at_first_error_witness :
  LoginPage.login "standard_user" "secret_sauce" Demo.brokenLoginForm
  = (inl "Timeout exceeded",
     Demo.record "fill standard_user" Demo.brokenLoginForm) /\
  LoginPage.login "standard_user" "secret_sauce" Demo.loginForm
  = locator_click (Loc (dataTest "login-button"))
      (Demo.record "fill secret_sauce"
         (Demo.record "fill standard_user" Demo.loginForm)).
Proof.
  split.
  - apply (proj1 (proj2 (forms_stop_at_first_error (P := Demo.page)
                           Demo.brokenLoginForm
                           "standard_user" "secret_sauce" ""))
             (Demo.record "fill standard_user" Demo.brokenLoginForm));
      reflexivity.
  - apply (proj1 (proj2 (proj2 (forms_stop_at_first_error (P := Demo.page)
                                  Demo.loginForm
                                  "standard_user" "secret_sauce" "")))
             (Demo.record "fill standard_user" Demo.loginForm));
      reflexivity.
Defined.

(** ** Order completion *)

(** X13: [isOrderComplete] never throws and always makes both visibility
    checks, the header first; it answers true only when both checks
    themselves returned true, so a check that throws counts as not
    complete. *)
Theorem isOrderComplete_both_checks {W : Type} {P : Page W} (w : W) :
  exists b1 w1 b2 w2,
    BasePage.isVisible ".complete-header" w = (inr b1, w1) /\
    BasePage.isVisible ".complete-text" w1 = (inr b2, w2) /\
    CheckoutCompletePage.isOrderComplete w = (inr (b1 && b2), w2) /\
    (b1 && b2 = true ->
     locator_isVisible (Loc ".complete-header") w = (inr true, w1) /\
     locator_isVisible (Loc ".complete-text") w1 = (inr true, w2)).
Proof.
  unfold CheckoutCompletePage.isOrderComplete, bind, BasePage.isVisible,
    tryCatch, ret.
  change CheckoutCompletePage.confirmationHeader with ".complete-header".
  change CheckoutCompletePage.confirmationMessage with ".complete-text".
  destruct (locator_isVisible (Loc ".complete-header") w)
    as [[e1|b1] w1] eqn:H1;
    destruct (locator_isVisible (Loc ".complete-text") w1)
      as [[e2|b2] w2] eqn:H2.
  - exists false, w1, false, w2. rewrite H2. repeat split; discriminate.
  - exists false, w1, b2, w2. rewrite H2. repeat split; discriminate.
  - exists b1, w1, false, w2. rewrite H2. repeat split;
      rewrite andb_false_r in *; discriminate.
  - exists b1, w1, b2, w2. rewrite H2. repeat split;
      apply andb_true_iff in H as [-> ->]; reflexivity.
Qed.

Lemma isOrderComplete_both_checks_witness :
  exists b1 w1 b2 w2,
    BasePage.isVisible ".complete-header" Demo.doubledHeader = (inr b1, w1) /\
    BasePage.isVisible ".complete-text" w1 = (inr b2, w2) /\
    CheckoutCompletePage.isOrderComplete Demo.doubledHeader
    = (inr (b1 && b2), w2) /\
    (b1 && b2 = true ->
     locator_isVisible (Loc ".complete-header") Demo.doubledHeader
     = (inr true, w1) /\
     locator_isVisible (Loc ".complete-text") w1 = (inr true, w2)).
Proof. apply (isOrderComplete_both_checks Demo.doubledHeader). Defined.

Example isOrderComplete_doubled_header :
  CheckoutCompletePage.isOrderComplete Demo.doubledHeader
  = (inr false, Demo.doubledHeader).
Proof. reflexivity. Qed.

(** ** More on the configuration *)

(** X14: the configuration reads nothing of the environment but whether
    [CI] is truthy; retries are on exactly when [forbidOnly] is, and are 0
    or 2; and the assertion, action, navigation and scenario timeouts
    increase in that order. *)
Theorem config_reads_CI_only (env env' : Config.Env) :
  (JS.truthyOpt (env "CI") = JS.truthyOpt (env' "CI") ->
   Config.config env = Config.config env') /\
  (Config.forbidOnly (Config.config env) = true <->
   Config.retries (Config.config env) = 2%Z) /\
  (Config.retries (Config.config env) = 0%Z \/
   Config.retries (Config.config env) = 2%Z) /\
  (Config.expect_timeout (Config.expect (Config.config env))
   < Config.actionTimeout (Config.use (Config.config env))
   < Config.navigationTimeout (Config.use (Config.config env)))%Z /\
  (Config.navigationTimeout (Config.use (Config.config env))
   < Config.timeout (Config.config env))%Z.
Proof.
  unfold Config.config. cbn.
  split; [intros ->; reflexivity|].
  destruct (JS.truthyOpt (env "CI")); repeat split; auto; try lia;
    discriminate.
Qed.

Lemma config_reads_CI_only_witness :
  Config.config (Demo.envWithCI (Some "true"))
  = Config.config (Demo.envWithCI (Some "1")) /\
  Config.retries (Config.config (Demo.envWithCI (Some "1"))) = 2%Z.
Proof.
  split.
  - apply (proj1 (config_reads_CI_only (Demo.envWithCI (Some "true"))
                    (Demo.envWithCI (Some "1")))).
    reflexivity.
  - apply (proj1 (proj2 (config_reads_CI_only (Demo.envWithCI (Some "1"))
                           (Demo.envWithCI None)))).
    reflexivity.
Defined.

(** ** Prices and amounts read alike *)

(** X15: a price text of the form dollar sign, digits, period, digits is
    read to the same number by the price list of the products page and by
    the summary amounts of the checkout overview: the double for its
    decimal value. *)
Theorem price_text_read_alike (ip fp : string) :
  Spec.allDigits ip = true -> ip <> "" ->
  Spec.allDigits fp = true -> fp <> "" ->
  Num.parseFloat (JS.replaceFirstChar JS.isDollar "" ("$" ++ ip ++ "." ++ fp))
  = CheckoutOverviewPage.amountOf ("$" ++ ip ++ "." ++ fp) /\
  CheckoutOverviewPage.amountOf ("$" ++ ip ++ "." ++ fp)
  = Num.toDouble (Spec.decimalValue ip fp).
Proof.
  intros Hip Hipne Hfp Hfpne.
  assert (H : CheckoutOverviewPage.amountOf ("$" ++ ip ++ "." ++ fp)
              = Num.toDouble (Spec.decimalValue ip fp)).
  { apply (amountOf_first _ "" ip fp "").
    split; [|split; [reflexivity | intros; simpl; lia]].
    split; [rewrite append_nil_r; reflexivity|]. repeat split; assumption. }
  split; [|exact H]. rewrite H.
  cbn [append JS.replaceFirstChar]. change (JS.isDollar "$") with true.
  cbv iota. cbn [append]. apply parseFloat_decimal; assumption.
Qed.

Lemma price_text_read_alike_witness :
  Num.parseFloat (JS.replaceFirstChar JS.isDollar "" "$29.99")
  = CheckoutOverviewPage.amountOf "$29.99" /\
  CheckoutOverviewPage.amountOf "$29.99"
  = Num.Finite (8441434551552573 # 281474976710656) /\
  Num.parseFloat (JS.replaceFirstChar JS.isDollar ""
                    ("$1" ++ Demo.zeros 309 ++ ".0"))
  = Num.Infinity false.
Proof.
  assert (N1 : "29" <> "") by discriminate.
  assert (N2 : "99" <> "") by discriminate.
  assert (N3 : "1" ++ Demo.zeros 309 <> "") by discriminate.
  assert (N4 : "0" <> "") by discriminate.
  assert (D : Spec.allDigits ("1" ++ Demo.zeros 309) = true)
    by (vm_compute; reflexivity).
  destruct (price_text_read_alike "29" "99" eq_refl N1 eq_refl N2)
    as [H1 H2].
  destruct (price_text_read_alike ("1" ++ Demo.zeros 309) "0"
              D N3 eq_refl N4) as [H3 H4].
  split; [exact H1|]. split.
  - etransitivity; [exact H2 | vm_compute; reflexivity].
  - etransitivity; [exact H3|]. etransitivity; [exact H4|].
    vm_compute. reflexivity.
Defined.

(** ** Presence checks *)

(** X16: [isProductAdded], [isItemInCart] and [isErrorDisplayed] never
    throw; each answers true only when the page itself reports its element
    visible, and answers false when the visibility check throws. *)
Theorem presence_checks_never_throw
    {W : Type} {P : Page W} (w : W) (name : string)
    (method : Async W bool) (selector : string) :
  In (method, selector)
     [ (ProductsPage.isProductAdded name,
        dataTest ("remove-" ++ ProductsPage.getProductId name));
       (CartPage.isItemInCart name, CartPage.getCartItemSelector name);
       (LoginPage.isErrorDisplayed, dataTest "error") ] ->
  (exists b w', method w = (inr b, w')) /\
  (forall w', method w = (inr true, w') ->
              locator_isVisible (Loc selector) w = (inr true, w')) /\
  (forall e w', locator_isVisible (Loc selector) w = (inl e, w') ->
                method w = (inr false, w')).
Proof.
  intros Hin.
  assert (Hm : method = BasePage.isVisible selector).
  { destruct Hin as [E|[E|[E|[]]]]; injection E as <- <-; reflexivity. }
  subst method. unfold BasePage.isVisible, tryCatch, ret.
  destruct (locator_isVisible (Loc selector) w) as [[e|b] w1].
  - split; [exists false, w1; reflexivity|]. split.
    + intros w' H. discriminate H.
    + intros e' w' H. injection H as _ <-. reflexivity.
  - split; [exists b, w1; reflexivity|]. split.
    + intros w' H. exact H.
    + intros e' w' H. discriminate H.
Qed.

Lemma presence_checks_never_throw_witness :
  (exists b w',
     CartPage.isItemInCart "Sauce Labs Backpack" Demo.inventory
     = (inr b, w')) /\
  LoginPage.isErrorDisplayed Demo.loginForm = (inr false, Demo.loginForm).
Proof.
  split.
  - apply (proj1 (presence_checks_never_throw (P := Demo.page)
                    Demo.inventory "Sauce Labs Backpack"
                    (CartPage.isItemInCart "Sauce Labs Backpack")
                    (CartPage.getCartItemSelector "Sauce Labs Backpack")
                    (or_intror (or_introl eq_refl)))).
  - destruct (presence_checks_never_throw (P := Demo.page)
                Demo.loginForm ""
                LoginPage.isErrorDisplayed (dataTest "error")
                (or_intror (or_intror (or_introl eq_refl))))
      as ([[|] [w' H]] & Htrue & _).
    + apply Htrue in H. discriminate H.
    + rewrite H. f_equal. vm_compute in H. injection H as <-. reflexivity.
Defined.

(** X17: in the cart, the query [removeItem] clicks is the query
    [isItemInCart] checks, continued from the name node up to its row and
    down to the remove button; and distinct names give distinct item
    queries. *)
Theorem cart_queries_share_name_node (name : string) :
  CartPage.getRemoveButtonSelector name
  = CartPage.getCartItemSelector name
      ++ "/ancestor::div[@class='cart_item']"
      ++ "//button[contains(@id, 'remove')]" /\
  (forall name',
     CartPage.getCartItemSelector name = CartPage.getCartItemSelector name' ->
     name = name').
Proof.
  unfold CartPage.getRemoveButtonSelector, CartPage.getCartItemSelector.
  split.
  - rewrite !append_assoc. reflexivity.
  - intros name' H. apply append_cancel_l in H.
    apply append_cancel_r in H. exact H.
Qed.

Lemma cart_queries_share_name_node_witness :
  "Sauce Labs Onesie" = "Sauce Labs Onesie".
Proof.
  apply (proj2 (cart_queries_share_name_node "Sauce Labs Onesie")).
  reflexivity.
Defined.
